(** * China Southern Power Grid statistics: the coordinator's refresh cycle

    A shallow embedding of [CSGCoordinator._async_update_data] from
    [custom_components/china_southern_power_grid_stat/sensor.py]: the
    safe-fetch wrapper, the refresh policy for historical data, the merge
    of the two daily feeds of the current month, the latest-day fallback,
    the per-account snapshot and the deadline and exception handling of a
    whole cycle.

    Python values are modelled dynamically ([pyval]); an operation that the
    interpreter would reject raises the corresponding exception in the
    model.  The remote client is an oracle from requests to responses, each
    response carrying the time the call takes. *)

From Stdlib Require Import ZArith QArith Bool Lia.
From stdpp Require Import base option list gmap strings pretty.

Open Scope Z_scope.

(* ================================================================= *)
(** * Python values *)

#[warnings="-register-all"]
Inductive pyval :=
| PNone
| PBool (b : bool)
| PNum (x : Q)                      (* int or float *)
| PStr (s : string)
| PTuple (items : list pyval)
| PList (items : list pyval)
| PDict (d : gmap string pyval).    (* dict with str keys *)

(** [homeassistant.const] *)
Definition STATE_UNAVAILABLE : string := "unavailable".
Definition STATE_UNKNOWN : string := "unknown".

(** Modelled from the spec: [STATE_UPDATE_UNCHANGED] is imported from the
    integration's [const.py]; the specification calls it the "unchanged"
    sentinel, a string distinct from the two states above. *)
Definition STATE_UPDATE_UNCHANGED : string := "unchanged".

Definition unavailable : pyval := PStr STATE_UNAVAILABLE.
Definition unknown : pyval := PStr STATE_UNKNOWN.
Definition unchanged : pyval := PStr STATE_UPDATE_UNCHANGED.

(** [v == s] for a string constant [s]: only a string equals a string. *)
Definition py_eq_str (v : pyval) (s : string) : bool :=
  match v with
  | PStr t => String.eqb t s
  | _ => false
  end.

(** [v is None] *)
Definition is_None (v : pyval) : bool :=
  match v with
  | PNone => true
  | _ => false
  end.

(** [bool(v)] *)
Definition truthy (v : pyval) : bool :=
  match v with
  | PNone => false
  | PBool b => b
  | PNum x => negb (Qeq_bool x 0)
  | PStr s => negb (String.eqb s "")
  | PTuple l | PList l => negb (Nat.eqb (length l) 0)
  | PDict d => negb (Nat.eqb (size d) 0)
  end.

(** [a or b] *)
Definition py_or (a b : pyval) : pyval := if truthy a then a else b.

(** [v in candidates], for a list of string constants *)
Definition py_in_strs (v : pyval) (candidates : list string) : bool :=
  existsb (py_eq_str v) candidates.

(* ================================================================= *)
(** * Exceptions and outcomes *)

(** An exception raised inside the remote client is known to the
    coordinator through its [isinstance] tests and its [str]; the class
    hierarchy itself lives in the client package. *)
Record client_exn := ClientExn {
  exn_message : string;
  isinstance_CSGAPIError : bool;
  isinstance_NotLoggedIn : bool;
  isinstance_TimeoutError : bool
}.

Inductive exn :=
| ClientRaised (e : client_exn)
| ArityMismatch (expected got : Z)   (* the ValueError of _safe_fetch *)
| UnpackError                        (* ValueError of a tuple assignment *)
| TypeError
| KeyError (key : string)
| IndexError
| AttributeError
| DeadlineExceeded.                  (* asyncio.TimeoutError of async_timeout *)

Definition is_CSGAPIError (e : exn) : bool :=
  match e with
  | ClientRaised c => isinstance_CSGAPIError c
  | _ => false
  end.

Definition is_NotLoggedIn (e : exn) : bool :=
  match e with
  | ClientRaised c => isinstance_NotLoggedIn c
  | _ => false
  end.

Definition is_TimeoutError (e : exn) : bool :=
  match e with
  | ClientRaised c => isinstance_TimeoutError c
  | DeadlineExceeded => true
  | _ => false
  end.

(** [str(err)]; for the interpreter's own errors only the kind is kept. *)
Definition exn_str (e : exn) : string :=
  match e with
  | ClientRaised c => exn_message c
  | ArityMismatch expected got =>
      "Number of return args doesn't match, expected: " +:+ pretty expected
        +:+ ", got: " +:+ pretty got
  | UnpackError => "wrong number of values to unpack"
  | TypeError => "unsupported operand type"
  | KeyError key => "'" +:+ key +:+ "'"
  | IndexError => "index out of range"
  | AttributeError => "object has no such attribute"
  | DeadlineExceeded => ""
  end.

Inductive outcome (A : Type) :=
| Returns (a : A)
| Raises (e : exn).
Arguments Returns {A} a.
Arguments Raises {A} e.

Definition obind {A B} (o : outcome A) (k : A -> outcome B) : outcome B :=
  match o with
  | Returns a => k a
  | Raises e => Raises e
  end.

(* ================================================================= *)
(** * Operations of the interpreter that can fail *)

(** [len(v)] *)
Definition py_len (v : pyval) : outcome Z :=
  match v with
  | PStr s => Returns (Z.of_nat (String.length s))
  | PTuple l | PList l => Returns (Z.of_nat (length l))
  | PDict d => Returns (Z.of_nat (size d))
  | _ => Raises TypeError
  end.

Fixpoint chars (s : string) : list pyval :=
  match s with
  | EmptyString => []
  | String c rest => PStr (String c EmptyString) :: chars rest
  end.

(** The items an iteration over [v] yields.  A dict yields its keys; their
    order is the map's, not the insertion order. *)
Definition py_iter (v : pyval) : outcome (list pyval) :=
  match v with
  | PStr s => Returns (chars s)
  | PTuple l | PList l => Returns l
  | PDict d => Returns (PStr <$> (map_to_list d).*1)
  | _ => Raises TypeError
  end.

(** [a, b, ... = v] with [n] targets *)
Definition unpack (n : nat) (v : pyval) : outcome (list pyval) :=
  obind (py_iter v) (fun l =>
    if Nat.eqb (length l) n then Returns l else Raises UnpackError).

(** [v[key]] for a string key *)
Definition getitem (v : pyval) (key : string) : outcome pyval :=
  match v with
  | PDict d =>
      match d !! key with
      | Some x => Returns x
      | None => Raises (KeyError key)
      end
  | _ => Raises TypeError
  end.

(** [v.get(key)] *)
Definition dict_get (v : pyval) (key : string) : outcome pyval :=
  match v with
  | PDict d => Returns (default PNone (d !! key))
  | _ => Raises AttributeError
  end.

(** [v[key] = x]: the dict that [v] denotes after the assignment *)
Definition setitem (v : pyval) (key : string) (x : pyval) : outcome pyval :=
  match v with
  | PDict d => Returns (PDict (<[key := x]> d))
  | _ => Raises TypeError
  end.

(** [v[idx]] for an index [idx >= 0] *)
Definition index (v : pyval) (idx : nat) : outcome pyval :=
  match v with
  | PTuple l | PList l =>
      match l !! idx with
      | Some x => Returns x
      | None => Raises IndexError
      end
  | PStr s =>
      match chars s !! idx with
      | Some x => Returns x
      | None => Raises IndexError
      end
  | PDict _ => Raises (KeyError (pretty (Z.of_nat idx)))
  | _ => Raises TypeError
  end.

(** [v[-1]] *)
Definition index_last (v : pyval) : outcome pyval :=
  match v with
  | PTuple l | PList l =>
      match last l with
      | Some x => Returns x
      | None => Raises IndexError
      end
  | PStr s =>
      match last (chars s) with
      | Some x => Returns x
      | None => Raises IndexError
      end
  | PDict _ => Raises (KeyError "-1")
  | _ => Raises TypeError
  end.

(** The sequence [v] with the element at [idx] replaced by an element that
    was mutated in place. *)
Definition with_item (v : pyval) (idx : nat) (x : pyval) : pyval :=
  match v with
  | PTuple l => PTuple (<[idx := x]> l)
  | PList l => PList (<[idx := x]> l)
  | _ => v
  end.

Declare Scope outcome_scope.
Delimit Scope outcome_scope with outcome.
Notation "'let?' x ':=' o 'in' k" := (obind o (fun x => k))
  (at level 10, x pattern, o at level 100, k at level 200) : outcome_scope.
Open Scope outcome_scope.

(* ================================================================= *)
(** * The remote client and the effects of a cycle *)

(** The calls the coordinator makes on the client; an account is named by
    its number in the configuration. *)
Inductive request :=
| verify_login
| refresh_login                      (* async_refresh_login_and_update_config *)
| initialize
| get_balance_and_arrears (account : string)
| get_yesterday_kwh (account : string)
| get_year_month_stats (account : string) (year : Z)
| get_month_daily_usage_detail (account : string) (year_month : Z * Z)
| get_month_daily_cost_detail (account : string) (year_month : Z * Z).

#[global] Instance request_eq_dec : EqDecision request.
Proof. solve_decision. Defined.

(** What a call does: it takes [latency] seconds and then returns a value
    or raises an exception of the client. *)
Inductive reply :=
| Return (v : pyval)
| Raise (e : client_exn).

Record response := Response {
  latency : Z;
  result : reply
}.

(** The remote service as a cycle meets it: one answer to each call.  No
    call is made twice with the same arguments within a cycle. *)
Definition client : Type := request -> response.

Inductive level := INFO | WARNING | ERROR.

(** Log records keep the level and the format string; debug records are
    left out. *)
Inductive event :=
| Called (r : request)
| Logged (lvl : level) (msg : string).

(** [last_update_day] is [hass.data[DOMAIN][entry][DATA_KEY_LAST_UPDATE_DAY]],
    [None] when the key is missing or holds [None]. *)
Record world := World {
  trace : list event;
  clock : Z;
  last_update_day : option Z
}.

Definition M (A : Type) : Type := world -> outcome A * world.

Definition mret {A} (a : A) : M A := fun w => (Returns a, w).

Definition bind {A B} (m : M A) (k : A -> M B) : M B :=
  fun w =>
    match m w with
    | (Returns a, w') => k a w'
    | (Raises e, w') => (Raises e, w')
    end.

Definition raise {A} (e : exn) : M A := fun w => (Raises e, w).

Definition lift {A} (o : outcome A) : M A := fun w => (o, w).

(** [try: m except Exception as err: handler err] *)
Definition catch {A} (m : M A) (handler : exn -> M A) : M A :=
  fun w =>
    match m w with
    | (Returns a, w') => (Returns a, w')
    | (Raises e, w') => handler e w'
    end.

Definition log (lvl : level) (msg : string) : M unit :=
  fun w => (Returns tt,
            World (trace w ++ [Logged lvl msg]) (clock w) (last_update_day w)).

Definition call (c : client) (r : request) : M pyval :=
  fun w => (match result (c r) with
            | Return v => Returns v
            | Raise e => Raises (ClientRaised e)
            end,
            World (trace w ++ [Called r]) (clock w + latency (c r))
                  (last_update_day w)).

Definition get_last_update_day : M (option Z) :=
  fun w => (Returns (last_update_day w), w).

Definition set_last_update_day (day : Z) : M unit :=
  fun w => (Returns tt, World (trace w) (clock w) (Some day)).

Declare Scope cycle_scope.
Delimit Scope cycle_scope with cycle.
Notation "'let*' x ':=' m 'in' k" := (bind m (fun x => k))
  (at level 10, x pattern, m at level 100, k at level 200) : cycle_scope.
Notation "m '>>' k" := (bind m (fun _ => k))
  (at level 90, right associativity) : cycle_scope.
Open Scope cycle_scope.

(* ================================================================= *)
(** * [_safe_fetch] *)

Definition _safe_fetch (c : client) (func : request) (num_ret : Z) : M pyval :=
  let ret :=
    if num_ret =? 1 then unavailable
    else PList (replicate (Z.to_nat num_ret) unavailable) in
  let* ret :=
    catch (call c func)
      (fun err =>
         if is_CSGAPIError err then
           log ERROR "Error fetching data in coordinator: function %s, %s" >>
           mret ret
         else raise err) in
  if num_ret =? 1 then mret ret
  else
    let* n := lift (py_len ret) in
    if negb (n =? num_ret) then raise (ArityMismatch num_ret n)
    else mret ret.

(** The tuple assignments that follow the calls of [_safe_fetch]. *)
Definition unpack2 (v : pyval) : outcome (pyval * pyval) :=
  let? l := unpack 2 v in
  match l with
  | [a; b] => Returns (a, b)
  | _ => Raises UnpackError
  end.

Definition unpack3 (v : pyval) : outcome (pyval * pyval * pyval) :=
  let? l := unpack 3 v in
  match l with
  | [a; b; c] => Returns (a, b, c)
  | _ => Raises UnpackError
  end.

Definition unpack4 (v : pyval) : outcome (pyval * pyval * pyval * pyval) :=
  let? l := unpack 4 v in
  match l with
  | [a; b; c; d] => Returns (a, b, c, d)
  | _ => Raises UnpackError
  end.

(* ================================================================= *)
(** * Refresh policy for last month and last year *)

Definition refresh_policy (this_month this_day : Z) : M (bool * bool) :=
  let* marker := get_last_update_day in
  match marker with
  | None =>
      (* first update *)
      let update_last_month := true in
      let update_last_year := true in
      log INFO "First update for account %s, getting all past data" >>
      mret (update_last_month, update_last_year)
  | Some stored_day =>
      let update_last_month := false in
      let update_last_year := false in
      let update_last_month :=
        if this_day <=? 5 then true else update_last_month in
      let today_first_update_triggered := stored_day =? this_day in
      let update_last_year :=
        if (this_month =? 1) && (this_day <=? 5) then
          if negb today_first_update_triggered then true
          else update_last_year
        else update_last_year in
      mret (update_last_month, update_last_year)
  end.

(* ================================================================= *)
(** * Ladder extraction *)

(** [ladder[key] if ladder[key] is not None else STATE_UNAVAILABLE] *)
Definition ladder_field (ladder : pyval) (key : string) : outcome pyval :=
  let? tested := getitem ladder key in
  if negb (is_None tested) then getitem ladder key
  else Returns unavailable.

Definition extract_ladder (ladder : pyval)
  : outcome (pyval * pyval * pyval * pyval) :=
  if negb (py_eq_str ladder STATE_UNAVAILABLE) then
    let? ladder_stage := ladder_field ladder "ladder" in
    let? ladder_remaining_kwh := ladder_field ladder "remaining_kwh" in
    let? ladder_tariff := ladder_field ladder "tariff" in
    let? ladder_start_date := ladder_field ladder "start_date" in
    Returns (ladder_stage, ladder_remaining_kwh, ladder_tariff,
             ladder_start_date)
  else
    Returns (unavailable, unavailable, unavailable, unavailable).

(* ================================================================= *)
(** * Merge of the two daily feeds of this month *)

(** The loop [for idx, item in enumerate(this_month_by_day_from_cost):
    this_month_by_day[idx]["cost"] = item["cost"]], from index [idx] on.
    The dicts of a series are taken to be distinct objects, so a write
    through one index is seen at that index only. *)
Fixpoint copy_costs (idx : nat) (items : list pyval)
    (this_month_by_day : pyval) : outcome pyval :=
  match items with
  | [] => Returns this_month_by_day
  | item :: rest =>
      let? cost := getitem item "cost" in
      let? day := index this_month_by_day idx in
      let? day' := setitem day "cost" cost in
      copy_costs (S idx) rest (with_item this_month_by_day idx day')
  end.

(** Returns [(this_month_by_day, this_month_kwh)]. *)
Definition merge_this_month
    (this_month_kwh_from_usage this_month_by_day_from_usage
     this_month_kwh_from_cost this_month_by_day_from_cost : pyval)
  : outcome (pyval * pyval) :=
  if py_eq_str this_month_by_day_from_cost STATE_UNAVAILABLE
     && py_eq_str this_month_by_day_from_usage STATE_UNAVAILABLE then
    Returns (unavailable, unavailable)
  else if py_eq_str this_month_by_day_from_cost STATE_UNAVAILABLE then
    Returns (this_month_by_day_from_usage, this_month_kwh_from_usage)
  else if py_eq_str this_month_kwh_from_usage STATE_UNAVAILABLE then
    Returns (this_month_by_day_from_cost, this_month_kwh_from_cost)
  else
    (* determine which is the latest *)
    let? len_cost := py_len this_month_by_day_from_cost in
    let? len_usage := py_len this_month_by_day_from_usage in
    if len_cost >=? len_usage then
      (* the result from daily cost is newer *)
      Returns (this_month_by_day_from_cost, this_month_kwh_from_cost)
    else
      (* the result from daily usage is newer, merge the costs into it *)
      let? items := py_iter this_month_by_day_from_cost in
      let? this_month_by_day :=
        copy_costs 0 items this_month_by_day_from_usage in
      Returns (this_month_by_day, this_month_kwh_from_usage).

(* ================================================================= *)
(** * Last month and the latest day *)

(** Returns [(last_year_cost, last_year_kwh, last_year_by_month)]. *)
Definition fetch_last_year (c : client) (account : string) (last_year : Z)
    (update_last_year : bool) : M (pyval * pyval * pyval) :=
  if update_last_year then
    let* ret := _safe_fetch c (get_year_month_stats account last_year) 3 in
    lift (unpack3 ret)
  else
    log INFO "Account %s, skipping getting last year data" >>
    mret (unchanged, unchanged, unchanged).

(** Returns [(last_month_kwh, last_month_by_day)]. *)
Definition fetch_last_month (c : client) (account : string)
    (last_month_ym : Z * Z) (update_last_month : bool)
    (this_month_by_day : pyval) : M (pyval * pyval) :=
  if update_last_month
     || negb (truthy this_month_by_day)
     || py_eq_str this_month_by_day STATE_UNAVAILABLE then
    (* either at the beginning of this month or this month's data hasn't
       been available yet *)
    let* ret :=
      _safe_fetch c (get_month_daily_usage_detail account last_month_ym) 2 in
    lift (unpack2 ret)
  else
    log INFO "Account %s, skipping getting last month data" >>
    mret (unchanged, unchanged).

(** Returns [(latest_day_kwh, latest_day_cost, latest_day_date)]. *)
Definition latest_day (this_month_by_day last_month_by_day : pyval)
  : M (pyval * pyval * pyval) :=
  if py_eq_str this_month_by_day STATE_UNAVAILABLE
     && py_eq_str last_month_by_day STATE_UNAVAILABLE then
    mret (unavailable, unavailable, unavailable)
  else
    let* this_month_has_data :=
      if negb (py_eq_str this_month_by_day STATE_UNAVAILABLE) then
        let* n := lift (py_len this_month_by_day) in mret (n >=? 1)
      else mret false in
    if this_month_has_data then
      (* we have this month's data, use the latest day *)
      let* latest_day_kwh :=
        lift (let? d := index_last this_month_by_day in getitem d "kwh") in
      let* cost :=
        lift (let? d := index_last this_month_by_day in dict_get d "cost") in
      let latest_day_cost := py_or cost unknown in
      let* latest_day_date :=
        lift (let? d := index_last this_month_by_day in getitem d "date") in
      mret (latest_day_kwh, latest_day_cost, latest_day_date)
    else
      (* this month isn't available yet, let's try last month *)
      let* last_month_has_data :=
        if negb (py_in_strs last_month_by_day
                   [STATE_UNAVAILABLE; STATE_UPDATE_UNCHANGED]) then
          let* n := lift (py_len last_month_by_day) in mret (n >=? 1)
        else mret false in
      if last_month_has_data then
        let* latest_day_kwh :=
          lift (let? d := index_last last_month_by_day in getitem d "kwh") in
        let latest_day_cost := unknown in
        let* latest_day_date :=
          lift (let? d := index_last last_month_by_day in getitem d "date") in
        mret (latest_day_kwh, latest_day_cost, latest_day_date)
      else
        log ERROR "Account %s, no latest day data available" >>
        mret (unavailable, unavailable, unavailable).

(* ================================================================= *)
(** * The snapshot of one account *)

(** The dict stored under one account number; a field is named after the
    constant that is its key. *)
Record snapshot := Snapshot {
  SUFFIX_BAL : pyval;
  SUFFIX_ARR : pyval;
  SUFFIX_YESTERDAY_KWH : pyval;
  SUFFIX_LATEST_DAY_KWH : pyval;
  SUFFIX_LATEST_DAY_COST : pyval;
  ATTR_KEY_LATEST_DAY_DATE : pyval;
  SUFFIX_THIS_YEAR_KWH : pyval;
  SUFFIX_THIS_YEAR_COST : pyval;
  ATTR_KEY_THIS_YEAR_BY_MONTH : pyval;
  SUFFIX_LAST_YEAR_KWH : pyval;
  SUFFIX_LAST_YEAR_COST : pyval;
  ATTR_KEY_LAST_YEAR_BY_MONTH : pyval;
  SUFFIX_THIS_MONTH_KWH : pyval;
  SUFFIX_THIS_MONTH_COST : pyval;
  SUFFIX_CURRENT_LADDER : pyval;
  SUFFIX_CURRENT_LADDER_REMAINING_KWH : pyval;
  SUFFIX_CURRENT_LADDER_TARIFF : pyval;
  ATTR_KEY_CURRENT_LADDER_START_DATE : pyval;
  ATTR_KEY_THIS_MONTH_BY_DAY : pyval;
  SUFFIX_LAST_MONTH_KWH : pyval;
  ATTR_KEY_LAST_MONTH_BY_DAY : pyval
}.

(** [datetime.datetime.now()] as the cycle reads it *)
Record datetime := DateTime {
  year : Z;
  month : Z;
  day : Z
}.

Definition last_month_of (this_year this_month : Z) : Z * Z :=
  let last_year := this_year - 1 in
  let last_month := this_month - 1 in
  if last_month =? 0 then (last_year, 12) else (this_year, last_month).

(** The body of the loop over the accounts. *)
Definition fetch_account (c : client) (current_dt : datetime)
    (update_last_month update_last_year : bool) (account : string)
  : M snapshot :=
  let this_year := year current_dt in
  let this_month := month current_dt in
  let last_year := this_year - 1 in
  let last_month_ym := last_month_of this_year this_month in
  let* ret := _safe_fetch c (get_balance_and_arrears account) 2 in
  let* (bal, arr) := lift (unpack2 ret) in
  let* yesterday_kwh := _safe_fetch c (get_yesterday_kwh account) 1 in
  let* ret := _safe_fetch c (get_year_month_stats account this_year) 3 in
  let* (this_year_cost, this_year_kwh, this_year_by_month) :=
    lift (unpack3 ret) in
  let* ret :=
    _safe_fetch c
      (get_month_daily_usage_detail account (this_year, this_month)) 2 in
  let* (this_month_kwh_from_usage, this_month_by_day_from_usage) :=
    lift (unpack2 ret) in
  let* ret :=
    _safe_fetch c
      (get_month_daily_cost_detail account (this_year, this_month)) 4 in
  let* (this_month_cost, this_month_kwh_from_cost, ladder,
         this_month_by_day_from_cost) := lift (unpack4 ret) in
  let* (ladder_stage, ladder_remaining_kwh, ladder_tariff,
         ladder_start_date) := lift (extract_ladder ladder) in
  let* (this_month_by_day, this_month_kwh) :=
    lift (merge_this_month this_month_kwh_from_usage
            this_month_by_day_from_usage this_month_kwh_from_cost
            this_month_by_day_from_cost) in
  let* (last_year_cost, last_year_kwh, last_year_by_month) :=
    fetch_last_year c account last_year update_last_year in
  let* (last_month_kwh, last_month_by_day) :=
    fetch_last_month c account last_month_ym update_last_month
      this_month_by_day in
  let* (latest_day_kwh, latest_day_cost, latest_day_date) :=
    latest_day this_month_by_day last_month_by_day in
  mret {|
    SUFFIX_BAL := bal;
    SUFFIX_ARR := arr;
    SUFFIX_YESTERDAY_KWH := yesterday_kwh;
    SUFFIX_LATEST_DAY_KWH := latest_day_kwh;
    SUFFIX_LATEST_DAY_COST := latest_day_cost;
    ATTR_KEY_LATEST_DAY_DATE := latest_day_date;
    SUFFIX_THIS_YEAR_KWH := this_year_kwh;
    SUFFIX_THIS_YEAR_COST := this_year_cost;
    ATTR_KEY_THIS_YEAR_BY_MONTH := this_year_by_month;
    SUFFIX_LAST_YEAR_KWH := last_year_kwh;
    SUFFIX_LAST_YEAR_COST := last_year_cost;
    ATTR_KEY_LAST_YEAR_BY_MONTH := last_year_by_month;
    SUFFIX_THIS_MONTH_KWH := this_month_kwh;
    SUFFIX_THIS_MONTH_COST := this_month_cost;
    SUFFIX_CURRENT_LADDER := ladder_stage;
    SUFFIX_CURRENT_LADDER_REMAINING_KWH := ladder_remaining_kwh;
    SUFFIX_CURRENT_LADDER_TARIFF := ladder_tariff;
    ATTR_KEY_CURRENT_LADDER_START_DATE := ladder_start_date;
    ATTR_KEY_THIS_MONTH_BY_DAY := this_month_by_day;
    SUFFIX_LAST_MONTH_KWH := last_month_kwh;
    ATTR_KEY_LAST_MONTH_BY_DAY := last_month_by_day
  |}.

(* ================================================================= *)
(** * [csg_fetch_all] and [_async_update_data] *)

(** The part of the config entry that a cycle reads: the account numbers
    of [config[CONF_ACCOUNTS]] in the order of the dict, and
    [config[CONF_SETTINGS][CONF_UPDATE_TIMEOUT]]. *)
Record config := Config {
  CONF_ACCOUNTS : list string;
  CONF_UPDATE_TIMEOUT : Z
}.

Fixpoint fetch_accounts (c : client) (current_dt : datetime)
    (update_last_month update_last_year : bool) (accounts : list string)
    (data_ret : gmap string snapshot) : M (gmap string snapshot) :=
  match accounts with
  | [] => mret data_ret
  | account_number :: rest =>
      let* snap :=
        fetch_account c current_dt update_last_month update_last_year
          account_number in
      fetch_accounts c current_dt update_last_month update_last_year rest
        (<[account_number := snap]> data_ret)
  end.

Definition csg_fetch_all (c : client) (cfg : config) (current_dt : datetime)
  : M (gmap string snapshot) :=
  match CONF_ACCOUNTS cfg with
  | [] =>
      (* no linked ele accounts *)
      log INFO "No ele account linked, skip coordinator update" >>
      mret ∅
  | _ =>
      let* logged_in := call c verify_login in
      (if negb (truthy logged_in) then
         (* expired session *)
         call c refresh_login >> mret tt
       else mret tt) >>
      call c initialize >>
      (* fetch data for each account *)
      let this_month := month current_dt in
      let this_day := day current_dt in
      let* (update_last_month, update_last_year) :=
        refresh_policy this_month this_day in
      let* data_ret :=
        fetch_accounts c current_dt update_last_month update_last_year
          (CONF_ACCOUNTS cfg) ∅ in
      log INFO "Coordinator %s update done!" >>
      set_last_update_day this_day >>
      mret data_ret
  end.

(** [async with async_timeout.timeout(timeout)] around the executor job:
    when the job needs more than [timeout] seconds the waiting coroutine
    gets [asyncio.TimeoutError] at the deadline.  The world it then sees is
    the one the job started from, [timeout] seconds later: the job writes
    the day marker as its last statement, after the deadline, and what the
    abandoned job goes on to do is not followed. *)
Definition with_timeout {A} (timeout : Z) (job : M A) : M A :=
  fun w =>
    let '(o, w') := job w in
    if timeout <? clock w' - clock w then
      (Raises DeadlineExceeded,
       World (trace w) (clock w + timeout) (last_update_day w))
    else (o, w').

(** What a cycle hands to the data update coordinator: the data, or the
    [UpdateFailed] it raises. *)
Inductive cycle_result :=
| Succeeded (data : gmap string snapshot)
| UpdateFailed (reason : string).

Definition _async_update_data (c : client) (cfg : config)
    (current_dt : datetime) (w : world) : cycle_result * world :=
  let timeout := CONF_UPDATE_TIMEOUT cfg in
  let '(timeout, w) :=
    if timeout <? 60 then
      (* temporary workaround *)
      (60, snd (log WARNING "Timeout value too low, setting to 60 seconds" w))
    else (timeout, w) in
  match with_timeout timeout (csg_fetch_all c cfg current_dt) w with
  | (Returns result, w') => (Succeeded result, w')
  | (Raises err, w') =>
      if is_NotLoggedIn err then
        (UpdateFailed "Session invalidated unexpectedly", w')
      else if is_CSGAPIError err then
        (UpdateFailed ("Error communicating with API: " +:+ exn_str err), w')
      else if is_TimeoutError err then
        (UpdateFailed ("Timeout communicating with API: " +:+ exn_str err),
         w')
      else
        (UpdateFailed ("Unexpected exception: " +:+ exn_str err),
         snd ((log ERROR "Unexpected exception: %s" >> log ERROR "%s") w'))
  end.

(* ================================================================= *)
(** * Vocabulary of the statements *)

(** The series a feed returns: a list of dicts, one per day. *)
Definition series (days : list (gmap string pyval)) : pyval :=
  PList (PDict <$> days).

(** The day at index [i] after the costs of [cs] were written over the days
    of [us] from index [idx] on. *)
Definition overwritten (idx : nat) (cs us : list (gmap string pyval))
    (i : nat) : option (gmap string pyval) :=
  u ← us !! i;
  if decide (idx <= i)%nat then
    match cs !! (i - idx)%nat with
    | Some c => Some (<["cost" := default PNone (c !! "cost")]> u)
    | None => Some u
    end
  else Some u.


(** What [_safe_fetch] puts in place of a failed call. *)
Definition sentinels (num_ret : Z) : pyval :=
  if num_ret =? 1 then unavailable
  else PList (replicate (Z.to_nat num_ret) unavailable).

(** The world after the call of [func], before anything is logged. *)
Definition after_call (c : client) (func : request) (w : world) : world :=
  World (trace w ++ [Called func]) (clock w + latency (c func))
        (last_update_day w).

(** [m] takes every world to one related to it by [R], whether it returns
    or raises. *)
Definition keeps (R : world -> world -> Prop) {A} (m : M A) : Prop :=
  forall w, R w (snd (m w)).


(** The second world has the trace of the first followed by events none of
    which is a warning. *)
Definition quiet (w w' : world) : Prop :=
  exists events,
    trace w' = trace w ++ events
    /\ Forall (fun ev => forall msg, ev <> Logged WARNING msg) events.

(** The world in which the executor job of a cycle starts. *)
Definition start_of_job (cfg : config) (w : world) : world :=
  if CONF_UPDATE_TIMEOUT cfg <? 60 then
    World (trace w
             ++ [Logged WARNING "Timeout value too low, setting to 60 seconds"])
          (clock w) (last_update_day w)
  else w.

(** The fields of a snapshot, by the name of their key. *)
Inductive field :=
| BAL | ARR | YESTERDAY_KWH
| LATEST_DAY_KWH | LATEST_DAY_COST | LATEST_DAY_DATE
| THIS_YEAR_KWH | THIS_YEAR_COST | THIS_YEAR_BY_MONTH
| LAST_YEAR_KWH | LAST_YEAR_COST | LAST_YEAR_BY_MONTH
| THIS_MONTH_KWH | THIS_MONTH_COST
| CURRENT_LADDER | CURRENT_LADDER_REMAINING_KWH | CURRENT_LADDER_TARIFF
| CURRENT_LADDER_START_DATE
| THIS_MONTH_BY_DAY | LAST_MONTH_KWH | LAST_MONTH_BY_DAY.

(** The value a snapshot holds under a key. *)
Definition field_value (f : field) (s : snapshot) : pyval :=
  match f with
  | BAL => SUFFIX_BAL s
  | ARR => SUFFIX_ARR s
  | YESTERDAY_KWH => SUFFIX_YESTERDAY_KWH s
  | LATEST_DAY_KWH => SUFFIX_LATEST_DAY_KWH s
  | LATEST_DAY_COST => SUFFIX_LATEST_DAY_COST s
  | LATEST_DAY_DATE => ATTR_KEY_LATEST_DAY_DATE s
  | THIS_YEAR_KWH => SUFFIX_THIS_YEAR_KWH s
  | THIS_YEAR_COST => SUFFIX_THIS_YEAR_COST s
  | THIS_YEAR_BY_MONTH => ATTR_KEY_THIS_YEAR_BY_MONTH s
  | LAST_YEAR_KWH => SUFFIX_LAST_YEAR_KWH s
  | LAST_YEAR_COST => SUFFIX_LAST_YEAR_COST s
  | LAST_YEAR_BY_MONTH => ATTR_KEY_LAST_YEAR_BY_MONTH s
  | THIS_MONTH_KWH => SUFFIX_THIS_MONTH_KWH s
  | THIS_MONTH_COST => SUFFIX_THIS_MONTH_COST s
  | CURRENT_LADDER => SUFFIX_CURRENT_LADDER s
  | CURRENT_LADDER_REMAINING_KWH => SUFFIX_CURRENT_LADDER_REMAINING_KWH s
  | CURRENT_LADDER_TARIFF => SUFFIX_CURRENT_LADDER_TARIFF s
  | CURRENT_LADDER_START_DATE => ATTR_KEY_CURRENT_LADDER_START_DATE s
  | THIS_MONTH_BY_DAY => ATTR_KEY_THIS_MONTH_BY_DAY s
  | LAST_MONTH_KWH => SUFFIX_LAST_MONTH_KWH s
  | LAST_MONTH_BY_DAY => ATTR_KEY_LAST_MONTH_BY_DAY s
  end.

(** The fields that hold one scalar each. *)
Definition scalar_fields : list field :=
  [BAL; ARR; YESTERDAY_KWH; LATEST_DAY_KWH; LATEST_DAY_COST;
   THIS_YEAR_KWH; THIS_YEAR_COST; LAST_YEAR_KWH; LAST_YEAR_COST;
   THIS_MONTH_KWH; THIS_MONTH_COST; LAST_MONTH_KWH;
   CURRENT_LADDER; CURRENT_LADDER_REMAINING_KWH; CURRENT_LADDER_TARIFF;
   CURRENT_LADDER_START_DATE].

(** A concrete value of a scalar field: a number, or a string (a date) that
    is none of the state words. *)
Definition concrete (v : pyval) : Prop :=
  match v with
  | PNum _ => True
  | PStr s =>
      s <> STATE_UNAVAILABLE /\ s <> STATE_UPDATE_UNCHANGED
      /\ s <> STATE_UNKNOWN
  | _ => False
  end.

(** The three states of the contract. *)
Definition three_state (v : pyval) : Prop :=
  concrete v \/ v = unavailable \/ v = unchanged.

(** A number, or the sentinel of a failed call. *)
Definition number_or_unavailable (v : pyval) : Prop :=
  (exists x, v = PNum x) \/ v = unavailable.

(** Modelled from the spec: the DailyRecord of section 3, which the
    client package (not among the sources) builds.  Its kwh is a decimal
    or unavailable, its cost a decimal or absent. *)
Definition typed_day (d : gmap string pyval) : Prop :=
  (forall kwh, d !! "kwh" = Some kwh -> number_or_unavailable kwh)
  /\ (forall cost, d !! "cost" = Some cost -> exists x, cost = PNum x).

(** A series as the cycle holds it: a list of such days, or the sentinel. *)
Definition typed_series (v : pyval) : Prop :=
  v = unavailable \/ exists days, v = series days /\ Forall typed_day days.

(** Modelled from the spec: the LadderInfo of section 3, built by the
    client package; each of its fields is null or a concrete value. *)
Definition typed_ladder (ladder : gmap string pyval) : Prop :=
  forall key x, ladder !! key = Some x -> x = PNone \/ concrete x.

(** Modelled from the spec: the results of the operations of the remote
    data source (section 6), which the client package declares: balance
    and arrears; a kwh; cost, kwh and a series by month; kwh and a series
    by day; cost, kwh, ladder and a series by day. *)
Definition typed_reply (r : request) (v : pyval) : Prop :=
  match r with
  | get_balance_and_arrears _ =>
      exists bal arr, v = PTuple [PNum bal; PNum arr]
  | get_yesterday_kwh _ => exists kwh, v = PNum kwh
  | get_year_month_stats _ _ =>
      exists cost kwh by_month, v = PTuple [PNum cost; PNum kwh; by_month]
  | get_month_daily_usage_detail _ _ =>
      exists kwh days,
        v = PTuple [PNum kwh; series days] /\ Forall typed_day days
  | get_month_daily_cost_detail _ _ =>
      exists cost kwh ladder days,
        v = PTuple [PNum cost; PNum kwh; PDict ladder; series days]
        /\ typed_ladder ladder /\ Forall typed_day days
  | _ => True
  end.

(** Every value the client returns has the type of its operation. *)
Definition well_typed (c : client) : Prop :=
  forall r v, result (c r) = Return v -> typed_reply r v.



(** The steps of a run of [fetch_account] that returned [snap], with the
    values each step returned named by the field they end up in. *)
Definition account_steps (c : client) (current_dt : datetime)
    (update_last_month update_last_year : bool) (account : string)
    (w : world) (snap : snapshot) : Prop :=
  let this_year := year current_dt in
  let this_month := month current_dt in
  exists w1 w2 w3 w4 w5 w6 w7 w8 ret_balance ret_this_year ret_usage ret_cost
         kwh_from_usage by_day_from_usage kwh_from_cost ladder
         by_day_from_cost,
    _safe_fetch c (get_balance_and_arrears account) 2 w
      = (Returns ret_balance, w1)
    /\ unpack2 ret_balance = Returns (SUFFIX_BAL snap, SUFFIX_ARR snap)
    /\ _safe_fetch c (get_yesterday_kwh account) 1 w1
       = (Returns (SUFFIX_YESTERDAY_KWH snap), w2)
    /\ _safe_fetch c (get_year_month_stats account this_year) 3 w2
       = (Returns ret_this_year, w3)
    /\ unpack3 ret_this_year
       = Returns (SUFFIX_THIS_YEAR_COST snap, SUFFIX_THIS_YEAR_KWH snap,
                  ATTR_KEY_THIS_YEAR_BY_MONTH snap)
    /\ _safe_fetch c
         (get_month_daily_usage_detail account (this_year, this_month)) 2 w3
       = (Returns ret_usage, w4)
    /\ unpack2 ret_usage = Returns (kwh_from_usage, by_day_from_usage)
    /\ _safe_fetch c
         (get_month_daily_cost_detail account (this_year, this_month)) 4 w4
       = (Returns ret_cost, w5)
    /\ unpack4 ret_cost
       = Returns (SUFFIX_THIS_MONTH_COST snap, kwh_from_cost, ladder,
                  by_day_from_cost)
    /\ extract_ladder ladder
       = Returns (SUFFIX_CURRENT_LADDER snap,
                  SUFFIX_CURRENT_LADDER_REMAINING_KWH snap,
                  SUFFIX_CURRENT_LADDER_TARIFF snap,
                  ATTR_KEY_CURRENT_LADDER_START_DATE snap)
    /\ merge_this_month kwh_from_usage by_day_from_usage kwh_from_cost
         by_day_from_cost
       = Returns (ATTR_KEY_THIS_MONTH_BY_DAY snap, SUFFIX_THIS_MONTH_KWH snap)
    /\ fetch_last_year c account (this_year - 1) update_last_year w5
       = (Returns (SUFFIX_LAST_YEAR_COST snap, SUFFIX_LAST_YEAR_KWH snap,
                   ATTR_KEY_LAST_YEAR_BY_MONTH snap), w6)
    /\ fetch_last_month c account (last_month_of this_year this_month)
         update_last_month (ATTR_KEY_THIS_MONTH_BY_DAY snap) w6
       = (Returns (SUFFIX_LAST_MONTH_KWH snap,
                   ATTR_KEY_LAST_MONTH_BY_DAY snap), w7)
    /\ latest_day (ATTR_KEY_THIS_MONTH_BY_DAY snap)
         (ATTR_KEY_LAST_MONTH_BY_DAY snap) w7
       = (Returns (SUFFIX_LATEST_DAY_KWH snap, SUFFIX_LATEST_DAY_COST snap,
                   ATTR_KEY_LATEST_DAY_DATE snap), w8).





(** A client for the examples: every call takes [seconds] seconds; the
    session is valid, the usage feed has two days of March and one of
    February, the cost feed one day of March. *)
Definition sample_client (seconds : Z) : client :=
  fun r =>
    Response seconds
      match r with
      | verify_login => Return (PBool true)
      | refresh_login | initialize => Return PNone
      | get_balance_and_arrears _ => Return (PTuple [PNum 10.5; PNum 0])
      | get_yesterday_kwh _ => Return (PNum 4)
      | get_year_month_stats _ _ =>
          Return (PTuple [PNum 120; PNum 200; PList []])
      | get_month_daily_usage_detail _ (_, m) =>
          if m =? 3 then
            Return
              (PTuple
                 [PNum 7;
                  series [ {["date" := PStr "2024-03-01"; "kwh" := PNum 3]};
                           {["date" := PStr "2024-03-02"; "kwh" := PNum 4]} ]])
          else
            Return
              (PTuple
                 [PNum 5;
                  series [ {["date" := PStr "2024-02-29"; "kwh" := PNum 5]} ]])
      | get_month_daily_cost_detail _ _ =>
          Return
            (PTuple
               [PNum 1.2; PNum 3;
                PDict {["ladder" := PNum 2; "remaining_kwh" := PNone;
                        "tariff" := PNum 0.58;
                        "start_date" := PStr "2024-01-01"]};
                series [ {["date" := PStr "2024-03-01"; "kwh" := PNum 3;
                           "cost" := PNum 1.2]} ]])
      end.


(* ================================================================= *)
(** * The sensors *)

(** The constants of [const.py] that the sensors use as strings: the
    domain and the value of each key constant.  The module is not among
    the sources, so its values are a parameter. *)
Record const_py := ConstPy {
  DOMAIN : string;
  key : field -> string
}.

(** The keys under which [csg_fetch_all] stores a dict of one entry (the
    [ATTR_KEY_] constants) rather than the value itself. *)
Definition is_attr_key (k : field) : bool :=
  match k with
  | LATEST_DAY_DATE | THIS_YEAR_BY_MONTH | LAST_YEAR_BY_MONTH
  | CURRENT_LADDER_START_DATE | THIS_MONTH_BY_DAY | LAST_MONTH_BY_DAY => true
  | _ => false
  end.

(** [account_data.get(k)] on the dict that [csg_fetch_all] stores for an
    account: every key is there; an [ATTR_KEY_] entry is the dict
    [{k: value}]. *)
Definition account_data_get (K : const_py) (account_data : snapshot)
    (k : field) : pyval :=
  if is_attr_key k then PDict {[key K k := field_value k account_data]}
  else field_value k account_data.

Inductive sensor_class :=
| CSGEnergySensor
| CSGCostSensor
| CSGLadderStageSensor.

(** An entity: what [__init__] stores and the three [_attr_] fields the
    update handler assigns. *)
Record sensor := Sensor {
  class_of : sensor_class;
  _account_number : string;
  _entity_suffix : field;
  _extra_state_attributes_key : option field;
  _attr_available : bool;
  _attr_native_value : pyval;
  _attr_extra_state_attributes : pyval
}.

(** [CSGBaseSensor.__init__]; availability and native value start with the
    defaults of the base classes. *)
Definition new_sensor (cls : sensor_class) (account_number : string)
    (entity_suffix : field) (extra_state_attributes_key : option field)
  : sensor :=
  {| class_of := cls;
     _account_number := account_number;
     _entity_suffix := entity_suffix;
     _extra_state_attributes_key := extra_state_attributes_key;
     _attr_available := true;
     _attr_native_value := PNone;
     _attr_extra_state_attributes := PDict ∅ |}.

(** [unique_id] and [name] *)
Definition unique_id (K : const_py) (s : sensor) : string :=
  DOMAIN K +:+ "." +:+ _account_number s +:+ "." +:+ key K (_entity_suffix s).

Definition name (K : const_py) (s : sensor) : string :=
  _account_number s +:+ "-" +:+ key K (_entity_suffix s).

(** What the handler does besides assigning fields: it logs (debug records
    are left out) and it calls [async_write_ha_state], recorded with the
    three fields as they are at the call. *)
Inductive sensor_event :=
| SensorLogged (lvl : level) (msg : string)
| WroteState (available : bool)
    (native_value extra_state_attributes : pyval).

Definition async_write_ha_state (s : sensor) : sensor_event :=
  WroteState (_attr_available s) (_attr_native_value s)
    (_attr_extra_state_attributes s).

Definition set_available (b : bool) (s : sensor) : sensor :=
  {| class_of := class_of s;
     _account_number := _account_number s;
     _entity_suffix := _entity_suffix s;
     _extra_state_attributes_key := _extra_state_attributes_key s;
     _attr_available := b;
     _attr_native_value := _attr_native_value s;
     _attr_extra_state_attributes := _attr_extra_state_attributes s |}.

Definition set_native_value (v : pyval) (s : sensor) : sensor :=
  {| class_of := class_of s;
     _account_number := _account_number s;
     _entity_suffix := _entity_suffix s;
     _extra_state_attributes_key := _extra_state_attributes_key s;
     _attr_available := _attr_available s;
     _attr_native_value := v;
     _attr_extra_state_attributes := _attr_extra_state_attributes s |}.

Definition set_extra_state_attributes (v : pyval) (s : sensor) : sensor :=
  {| class_of := class_of s;
     _account_number := _account_number s;
     _entity_suffix := _entity_suffix s;
     _extra_state_attributes_key := _extra_state_attributes_key s;
     _attr_available := _attr_available s;
     _attr_native_value := _attr_native_value s;
     _attr_extra_state_attributes := v |}.

(** [bool(self._coordinator.data)]: no data yet, or an empty dict. *)
Definition has_data (data : option (gmap string snapshot)) : bool :=
  match data with
  | None => false
  | Some d => negb (Nat.eqb (size d) 0)
  end.

(** [CSGBaseSensor._handle_coordinator_update], with [data] the data of
    the coordinator: the sensor after the update and what was logged and
    written, in order. *)
Definition _handle_coordinator_update (K : const_py)
    (data : option (gmap string snapshot)) (s : sensor)
  : sensor * list sensor_event :=
  if negb (has_data data) then
    let s := set_available false s in
    (s, [SensorLogged ERROR "%s coordinator has no data";
         async_write_ha_state s])
  else
    match default ∅ data !! _account_number s with
    | None =>
        let s := set_available false s in
        (s, [SensorLogged WARNING "%s not found in coordinator data";
             async_write_ha_state s])
    | Some account_data =>
        let new_native_value :=
          account_data_get K account_data (_entity_suffix s) in
        if is_None new_native_value then
          let s := set_available false s in
          (s, [SensorLogged WARNING "%s data not found in coordinator data";
               async_write_ha_state s])
        else if py_eq_str new_native_value STATE_UNAVAILABLE then
          let written := async_write_ha_state s in
          let s := set_available false s in
          (s, [written])
        else
          (* from this point the value is available *)
          let s := set_available true s in
          if py_eq_str new_native_value STATE_UPDATE_UNCHANGED then
            (* no update for this sensor, skip *)
            (s, [])
          else
            (* from this point, new_native_value is a true value *)
            let s := set_native_value new_native_value s in
            let '(s, logged) :=
              match _extra_state_attributes_key s with
              | Some k =>
                  if truthy (PStr (key K k)) then
                    let new_attributes := account_data_get K account_data k in
                    if is_None new_attributes then
                      (set_extra_state_attributes (PDict ∅) s,
                       [SensorLogged WARNING
                          "%s attribute %s not found in coordinator data"])
                    else (set_extra_state_attributes new_attributes s, [])
                  else (s, [])
              | None => (s, [])
              end in
            (s, logged ++ [async_write_ha_state s])
    end.

(** The sensors [async_setup_entry] creates for one account, in order. *)
Definition sensors_of_account (account_number : string) : list sensor :=
  [ new_sensor CSGCostSensor account_number BAL None;
    new_sensor CSGCostSensor account_number ARR None;
    new_sensor CSGEnergySensor account_number YESTERDAY_KWH None;
    new_sensor CSGEnergySensor account_number LATEST_DAY_KWH
      (Some LATEST_DAY_DATE);
    new_sensor CSGCostSensor account_number LATEST_DAY_COST
      (Some LATEST_DAY_DATE);
    new_sensor CSGEnergySensor account_number THIS_YEAR_KWH
      (Some THIS_YEAR_BY_MONTH);
    new_sensor CSGCostSensor account_number THIS_YEAR_COST None;
    new_sensor CSGEnergySensor account_number THIS_MONTH_KWH
      (Some THIS_MONTH_BY_DAY);
    new_sensor CSGCostSensor account_number THIS_MONTH_COST
      (Some THIS_MONTH_BY_DAY);
    new_sensor CSGLadderStageSensor account_number CURRENT_LADDER
      (Some CURRENT_LADDER_START_DATE);
    new_sensor CSGEnergySensor account_number CURRENT_LADDER_REMAINING_KWH
      None;
    new_sensor CSGCostSensor account_number CURRENT_LADDER_TARIFF None;
    new_sensor CSGEnergySensor account_number LAST_YEAR_KWH
      (Some LAST_YEAR_BY_MONTH);
    new_sensor CSGCostSensor account_number LAST_YEAR_COST None;
    new_sensor CSGEnergySensor account_number LAST_MONTH_KWH
      (Some LAST_MONTH_BY_DAY) ].

(** [all_sensors] after the loop over the accounts *)
Fixpoint all_sensors_of (accounts : list string) : list sensor :=
  match accounts with
  | [] => []
  | account_number :: rest =>
      sensors_of_account account_number ++ all_sensors_of rest
  end.

(** [async_setup_entry] on the accounts of the config entry: [None] when
    it returns before creating anything, else the entities it adds before
    it refreshes the coordinator. *)
Definition async_setup_entry (cfg : config) : option (list sensor) :=
  match CONF_ACCOUNTS cfg with
  | [] => None
  | accounts => Some (all_sensors_of accounts)
  end.

(** The keys of the dict of an account; whether a string has a dot. *)
Definition all_fields : list field :=
  [BAL; ARR; YESTERDAY_KWH; LATEST_DAY_KWH; LATEST_DAY_COST; LATEST_DAY_DATE;
   THIS_YEAR_KWH; THIS_YEAR_COST; THIS_YEAR_BY_MONTH;
   LAST_YEAR_KWH; LAST_YEAR_COST; LAST_YEAR_BY_MONTH;
   THIS_MONTH_KWH; THIS_MONTH_COST;
   CURRENT_LADDER; CURRENT_LADDER_REMAINING_KWH; CURRENT_LADDER_TARIFF;
   CURRENT_LADDER_START_DATE; THIS_MONTH_BY_DAY; LAST_MONTH_KWH;
   LAST_MONTH_BY_DAY].

Fixpoint has_dot (s : string) : bool :=
  match s with
  | EmptyString => false
  | String x rest => String.eqb (String x EmptyString) "." || has_dot rest
  end.

#[global] Instance field_eq_dec : EqDecision field.
Proof. solve_decision. Defined.

(** The value the handler finds for a sensor in the data of the
    coordinator: none when there is no data or none for the account. *)
Definition reading (K : const_py) (data : option (gmap string snapshot))
    (s : sensor) : option pyval :=
  if has_data data then
    account_data ← default ∅ data !! _account_number s;
    Some (account_data_get K account_data (_entity_suffix s))
  else None.

(** The three fields of a sensor that a write records, and the states
    written among the events of the handler. *)
Definition state_of (s : sensor) : bool * pyval * pyval :=
  (_attr_available s, _attr_native_value s, _attr_extra_state_attributes s).

Definition written (events : list sensor_event)
  : list (bool * pyval * pyval) :=
  omap (fun ev =>
          match ev with
          | WroteState a v e => Some (a, v, e)
          | SensorLogged _ _ => None
          end) events.

(** [s] is the entity [s0], in any state. *)
Definition same_entity (s s0 : sensor) : Prop :=
  class_of s = class_of s0
  /\ _account_number s = _account_number s0
  /\ _entity_suffix s = _entity_suffix s0
  /\ _extra_state_attributes_key s = _extra_state_attributes_key s0.

(** Constants for the examples: pairwise distinct, non-empty keys. *)
Definition sample_const : const_py :=
  {| DOMAIN := "china_southern_power_grid_stat";
     key := fun f =>
       match f with
       | BAL => "balance"
       | ARR => "arrears"
       | YESTERDAY_KWH => "yesterday_kwh"
       | LATEST_DAY_KWH => "latest_day_kwh"
       | LATEST_DAY_COST => "latest_day_cost"
       | LATEST_DAY_DATE => "latest_day_date"
       | THIS_YEAR_KWH => "this_year_total_usage"
       | THIS_YEAR_COST => "this_year_total_cost"
       | THIS_YEAR_BY_MONTH => "this_year_by_month"
       | LAST_YEAR_KWH => "last_year_total_usage"
       | LAST_YEAR_COST => "last_year_total_cost"
       | LAST_YEAR_BY_MONTH => "last_year_by_month"
       | THIS_MONTH_KWH => "this_month_total_usage"
       | THIS_MONTH_COST => "this_month_total_cost"
       | CURRENT_LADDER => "current_ladder"
       | CURRENT_LADDER_REMAINING_KWH => "current_ladder_remaining_kwh"
       | CURRENT_LADDER_TARIFF => "current_ladder_tariff"
       | CURRENT_LADDER_START_DATE => "current_ladder_start_date"
       | THIS_MONTH_BY_DAY => "this_month_by_day"
       | LAST_MONTH_KWH => "last_month_total_usage"
       | LAST_MONTH_BY_DAY => "last_month_by_day"
       end |}.

(** The calls among the events of a trace. *)
Definition calls (events : list event) : list request :=
  omap (fun ev => match ev with Called r => Some r | Logged _ _ => None end)
    events.

(** The requests a cycle can make for one account, in the order in which
    it makes them, and those of a whole cycle. *)
Definition requests_of_account (current_dt : datetime) (account : string)
  : list request :=
  let this_year := year current_dt in
  let this_month := month current_dt in
  [ get_balance_and_arrears account;
    get_yesterday_kwh account;
    get_year_month_stats account this_year;
    get_month_daily_usage_detail account (this_year, this_month);
    get_month_daily_cost_detail account (this_year, this_month);
    get_year_month_stats account (this_year - 1);
    get_month_daily_usage_detail account
      (last_month_of this_year this_month) ].

Definition requests_of_cycle (cfg : config) (current_dt : datetime)
  : list request :=
  [verify_login; refresh_login; initialize]
  ++ (CONF_ACCOUNTS cfg ≫= requests_of_account current_dt).

(** The call whose answer alone decides the value of a sensor: the values
    that are stored as the call returned them. *)
Definition source_of (current_dt : datetime) (account : string) (f : field)
  : option request :=
  match f with
  | BAL | ARR => Some (get_balance_and_arrears account)
  | YESTERDAY_KWH => Some (get_yesterday_kwh account)
  | THIS_YEAR_KWH | THIS_YEAR_COST =>
      Some (get_year_month_stats account (year current_dt))
  | THIS_MONTH_COST | CURRENT_LADDER | CURRENT_LADDER_REMAINING_KWH
  | CURRENT_LADDER_TARIFF =>
      Some (get_month_daily_cost_detail account
              (year current_dt, month current_dt))
  | _ => None
  end.

(** Whatever [m] returns or raises, the calls it makes are taken, in
    order, from [plan]. *)
Definition follows (plan : list request) {A} (m : M A) : Prop :=
  forall w,
    exists made,
      calls (trace (snd (m w))) = calls (trace w) ++ made
      /\ sublist made plan.

(* ================================================================= *)
(** * The refresh policy *)

(** C2: the policy always returns and leaves the marker alone.  Without a
    stored marker both flags are set.  With a stored marker,
    [update_last_month] is set exactly when the day of the month is at most
    5, and [update_last_year] exactly when the month is January, the day is
    at most 5 and the stored day differs from today; after the 5th both
    flags are clear whatever the month. *)
Theorem refresh_policy_flags (this_month this_day : Z) (w : world) :
  exists update_last_month update_last_year w',
    refresh_policy this_month this_day w
      = (Returns (update_last_month, update_last_year), w')
    /\ last_update_day w' = last_update_day w
    /\ match last_update_day w with
       | None => update_last_month = true /\ update_last_year = true
       | Some stored_day =>
           (update_last_month = true <-> this_day <= 5)
           /\ (update_last_year = true <->
                 this_month = 1 /\ this_day <= 5 /\ stored_day <> this_day)
           /\ (5 < this_day ->
                 update_last_month = false /\ update_last_year = false)
       end.
Proof.
  unfold refresh_policy, bind, get_last_update_day.
  destruct (last_update_day w) as [stored_day|] eqn:Hmarker; simpl.
  - eexists _, _, _. split; [reflexivity|]. split; [done|].
    destruct (Z.leb_spec this_day 5), (Z.eqb_spec this_month 1),
      (Z.eqb_spec stored_day this_day); simpl;
      (split; [|split]); try split; intros; try lia; try done;
      intuition (try lia; try discriminate).
  - eexists _, _, _. split; [reflexivity|]. by split.
Qed.

(* ================================================================= *)
(** * The merge of the two feeds of this month *)

Section Merge.

Implicit Types (us cs merged : list (gmap string pyval)) (idx i : nat).

Lemma py_len_series us : py_len (series us) = Returns (Z.of_nat (length us)).
Proof. unfold series. simpl. by rewrite length_fmap. Qed.

Lemma series_available us : py_eq_str (series us) STATE_UNAVAILABLE = false.
Proof. done. Qed.

(** The copying loop, started at [idx] on a usage series long enough to
    take every cost. *)
Lemma copy_costs_series cs : forall idx us,
  Forall (fun c => is_Some (c !! "cost")) cs ->
  (idx + length cs <= length us)%nat ->
  exists merged,
    copy_costs idx (PDict <$> cs) (series us) = Returns (series merged)
    /\ length merged = length us
    /\ forall i, merged !! i = overwritten idx cs us i.
Proof.
  induction cs as [|c cs IH]; intros idx us Hcost Hlen.
  - exists us. split; [done|]. split; [done|].
    intros i. unfold overwritten.
    destruct (us !! i) as [u|]; simpl; [|done].
    case_decide; try rewrite lookup_nil; done.
  - apply Forall_cons in Hcost as [[x Hx] Hcost]. simpl in Hlen.
    destruct (lookup_lt_is_Some_2 us idx) as [u Hu]; [lia|].
    destruct (IH (S idx) (<[idx := <["cost" := x]> u]> us)) as
      (merged & Hrun & Hlen' & Hat); [done| rewrite length_insert; lia |].
    exists merged. split; [|split].
    + simpl. rewrite Hx. simpl. unfold series at 1. simpl.
      rewrite list_lookup_fmap, Hu. simpl.
      unfold series in Hrun. rewrite list_fmap_insert in Hrun. exact Hrun.
    + by rewrite Hlen', length_insert.
    + intros i. rewrite Hat. unfold overwritten.
      destruct (decide (i = idx)) as [->|Hne].
      * rewrite list_lookup_insert_eq by lia. rewrite Hu. simpl.
        rewrite decide_False by lia. rewrite decide_True by lia.
        replace (idx - idx)%nat with 0%nat by lia. simpl. by rewrite Hx.
      * rewrite list_lookup_insert_ne by done.
        destruct (us !! i) as [u'|]; simpl; [|done].
        destruct (decide (S idx <= i)%nat), (decide (idx <= i)%nat);
          try lia; [|done].
        replace (i - idx)%nat with (S (i - S idx)) by lia. done.
Qed.

(** C1: both series are available (the usage call returned, so its total
    is not the sentinel).  When the cost series is at least as long as the
    usage series, the merge is the cost series with the cost total.
    Otherwise, provided every day of the cost series carries a cost, the
    merge has the length of the usage series and the usage total; each of
    its days agrees with the usage day on every key but ["cost"] (so on
    date and kwh), has the cost of the cost series at the indices that
    series covers, and the usage day's own cost entry beyond. *)
Theorem merge_this_month_both_available
    (kwh_from_usage kwh_from_cost : pyval) us cs :
  py_eq_str kwh_from_usage STATE_UNAVAILABLE = false ->
  ((length us <= length cs)%nat ->
     merge_this_month kwh_from_usage (series us) kwh_from_cost (series cs)
       = Returns (series cs, kwh_from_cost))
  /\ ((length cs < length us)%nat ->
      Forall (fun c => is_Some (c !! "cost")) cs ->
      exists merged,
        merge_this_month kwh_from_usage (series us) kwh_from_cost (series cs)
          = Returns (series merged, kwh_from_usage)
        /\ length merged = length us
        /\ forall i u, us !! i = Some u ->
             exists d, merged !! i = Some d
               /\ (forall key, key <> "cost" -> d !! key = u !! key)
               /\ match cs !! i with
                  | Some c => d !! "cost" = c !! "cost"
                  | None => d !! "cost" = u !! "cost"
                  end).
Proof.
  intros Hkwh. unfold merge_this_month.
  rewrite !series_available, Hkwh, !py_len_series. simpl.
  split.
  - intros Hle. destruct (Z.geb_spec (Z.of_nat (length cs))
                            (Z.of_nat (length us))); [done|lia].
  - intros Hlt Hcost.
    destruct (Z.geb_spec (Z.of_nat (length cs)) (Z.of_nat (length us)));
      [lia|].
    destruct (copy_costs_series cs 0 us Hcost) as (merged & Hrun & Hlen & Hat);
      [simpl; lia|].
    exists merged. rewrite Hrun. simpl. split; [done|]. split; [done|].
    intros i u Hu. specialize (Hat i). unfold overwritten in Hat.
    rewrite Hu in Hat. simpl in Hat. rewrite Nat.sub_0_r in Hat.
    destruct (cs !! i) as [c|] eqn:Hc.
    + eexists. split; [exact Hat|]. split.
      * intros key Hkey. by rewrite lookup_insert_ne.
      * rewrite lookup_insert_eq.
        eapply Forall_lookup_1 in Hcost as [x Hx]; [|exact Hc].
        by rewrite Hx.
    + exists u. by split.
Qed.

(** A usage feed of two days against a cost feed of one. *)
Lemma merge_this_month_both_available_witness :
  exists merged,
    merge_this_month (PNum 7)
      (series [ {["date" := PStr "2024-03-01"; "kwh" := PNum 3]};
                {["date" := PStr "2024-03-02"; "kwh" := PNum 4]} ])
      (PNum 3)
      (series [ {["date" := PStr "2024-03-01"; "kwh" := PNum 3;
                  "cost" := PNum 1.2]} ])
    = Returns (series merged, PNum 7)
    /\ length merged = 2%nat.
Proof.
  destruct (merge_this_month_both_available (PNum 7) (PNum 3)
    [ {["date" := PStr "2024-03-01"; "kwh" := PNum 3]};
      {["date" := PStr "2024-03-02"; "kwh" := PNum 4]} ]
    [ {["date" := PStr "2024-03-01"; "kwh" := PNum 3; "cost" := PNum 1.2]} ]
    eq_refl) as [_ Hlonger].
  destruct Hlonger as (merged & Hrun & Hlen & _).
  - simpl. lia.
  - repeat constructor. by eexists.
  - exists merged. split; [exact Hrun|exact Hlen].
Defined.

(** The third branch looks at the total of the usage feed, not at its
    series: were the total the sentinel next to a series, the cost series
    would be taken whatever the lengths.  A usage call that returned has a
    number for its total, so the branch is taken only when the call
    failed. *)
Lemma merge_this_month_tests_usage_total (kwh_from_cost : pyval) us cs :
  merge_this_month unavailable (series us) kwh_from_cost (series cs)
    = Returns (series cs, kwh_from_cost).
Proof. unfold merge_this_month. by rewrite !series_available. Qed.

End Merge.

(* ================================================================= *)
(** * The latest day *)

Section LatestDay.

Implicit Types (tm lm : list (gmap string pyval)) (d : gmap string pyval).

Lemma index_last_series tm d :
  last tm = Some d -> index_last (series tm) = Returns (PDict d).
Proof. intros Hlast. unfold series. simpl. by rewrite fmap_last, Hlast. Qed.

Lemma py_len_nonempty tm d :
  last tm = Some d -> exists n, py_len (series tm) = Returns n /\ 1 <= n.
Proof.
  intros Hlast. rewrite py_len_series. eexists. split; [done|].
  destruct tm; [done|]. simpl. lia.
Qed.

(** With data for this month the last day of the month's series is
    reported, whatever is known about last month. *)
Lemma latest_day_this_month tm d kwh date (last_month_by_day : pyval) w :
  last tm = Some d ->
  d !! "kwh" = Some kwh ->
  d !! "date" = Some date ->
  latest_day (series tm) last_month_by_day w
    = (Returns (kwh, py_or (default PNone (d !! "cost")) unknown, date), w).
Proof.
  intros Hlast Hkwh Hdate. unfold latest_day.
  rewrite series_available. cbn [andb negb].
  destruct (py_len_nonempty tm d Hlast) as (n & Hn & Hpos).
  unfold bind, lift, mret. rewrite Hn.
  destruct (Z.geb_spec n 1); [|lia].
  rewrite (index_last_series tm d Hlast). cbn [obind getitem dict_get].
  by rewrite Hkwh, Hdate.
Qed.

(** Without data for this month the last day of last month's series is
    reported, with an unknown cost. *)
Lemma latest_day_last_month (this_month_by_day : pyval) lm d kwh date w :
  this_month_by_day = unavailable \/ this_month_by_day = series [] ->
  last lm = Some d ->
  d !! "kwh" = Some kwh ->
  d !! "date" = Some date ->
  latest_day this_month_by_day (series lm) w
    = (Returns (kwh, unknown, date), w).
Proof.
  intros Hthis Hlast Hkwh Hdate.
  destruct (py_len_nonempty lm d Hlast) as (n & Hn & Hpos).
  destruct Hthis as [-> | ->]; unfold latest_day, bind, lift, mret;
    change (py_in_strs (series lm) _) with false; cbn [negb];
    [ change (py_eq_str unavailable STATE_UNAVAILABLE) with true
    | change (py_eq_str (series []) STATE_UNAVAILABLE) with false;
      change (py_len (series [])) with (Returns 0) ];
    rewrite series_available; cbn [andb negb]; rewrite Hn;
    change (0 >=? 1) with false; cbn iota;
    (destruct (Z.geb_spec n 1); [|lia]);
    rewrite (index_last_series lm d Hlast); cbn [obind getitem];
    by rewrite Hkwh, Hdate.
Qed.

(** C3: the fallback order of the latest day.  (a) With a non-empty series
    for this month, kwh and date are those of its last day.  (b) Else, with
    a non-empty series fetched for last month, kwh and date are those of
    its last day and the cost is "unknown".  (c) Else the three fields are
    "unavailable".  In particular an empty series for this month and the
    single day [{date: D, kwh: 5.0}] for last month give 5.0, "unknown"
    and D. *)
Theorem latest_day_fallback (w : world) :
  (forall tm d kwh date (last_month_by_day : pyval),
     last tm = Some d -> d !! "kwh" = Some kwh -> d !! "date" = Some date ->
     exists cost,
       latest_day (series tm) last_month_by_day w
         = (Returns (kwh, cost, date), w))
  /\ (forall (this_month_by_day : pyval) lm d kwh date,
        this_month_by_day = unavailable \/ this_month_by_day = series [] ->
        last lm = Some d -> d !! "kwh" = Some kwh -> d !! "date" = Some date ->
        latest_day this_month_by_day (series lm) w
          = (Returns (kwh, unknown, date), w))
  /\ (forall this_month_by_day last_month_by_day : pyval,
        this_month_by_day = unavailable \/ this_month_by_day = series [] ->
        last_month_by_day = unavailable \/ last_month_by_day = unchanged
          \/ last_month_by_day = series [] ->
        fst (latest_day this_month_by_day last_month_by_day w)
          = Returns (unavailable, unavailable, unavailable))
  /\ (forall D : pyval,
        latest_day (series []) (series [ {["date" := D; "kwh" := PNum 5]} ]) w
          = (Returns (PNum 5, unknown, D), w)).
Proof.
  split; [|split; [|split]].
  - intros tm d kwh date lm Hlast Hkwh Hdate. eexists.
    by apply latest_day_this_month.
  - intros. by eapply latest_day_last_month.
  - intros tm lm [-> | ->] [-> | [-> | ->]]; reflexivity.
  - intros D. eapply latest_day_last_month; [by right|done..].
Qed.

(** The two examples of the fallback, evaluated. *)
Lemma latest_day_fallback_witness :
  (exists cost,
     latest_day
       (series [ {["date" := PStr "2024-03-01"; "kwh" := PNum 3;
                   "cost" := PNum 1.2]};
                 {["date" := PStr "2024-03-02"; "kwh" := PNum 4;
                   "cost" := PNum 1.6]} ])
       unchanged (World [] 0 None)
     = (Returns (PNum 4, cost, PStr "2024-03-02"), World [] 0 None))
  /\ latest_day unavailable
       (series [ {["date" := PStr "2024-02-29"; "kwh" := PNum 5]} ])
       (World [] 0 None)
     = (Returns (PNum 5, unknown, PStr "2024-02-29"), World [] 0 None).
Proof.
  destruct (latest_day_fallback (World [] 0 None)) as (Hthis & Hlast & _).
  split.
  - apply (Hthis
      [ {["date" := PStr "2024-03-01"; "kwh" := PNum 3; "cost" := PNum 1.2]};
        {["date" := PStr "2024-03-02"; "kwh" := PNum 4; "cost" := PNum 1.6]} ]
      {["date" := PStr "2024-03-02"; "kwh" := PNum 4; "cost" := PNum 1.6]});
      reflexivity.
  - apply (Hlast unavailable
      [ {["date" := PStr "2024-02-29"; "kwh" := PNum 5]} ]
      {["date" := PStr "2024-02-29"; "kwh" := PNum 5]});
      [by left | reflexivity..].
Defined.

(** C5: the cost of the latest day goes through [or]: a last day whose
    cost is 0 is reported with the cost "unknown", not 0. *)
Theorem latest_day_cost_zero_reported_unknown
    (last_month_by_day : pyval) (w : world) :
  latest_day
    (series [ {["date" := PStr "2024-03-02"; "kwh" := PNum 0;
                "cost" := PNum 0]} ])
    last_month_by_day w
  = (Returns (PNum 0, unknown, PStr "2024-03-02"), w).
Proof.
  by rewrite (latest_day_this_month _
    {["date" := PStr "2024-03-02"; "kwh" := PNum 0; "cost" := PNum 0]}
    (PNum 0) (PStr "2024-03-02")).
Qed.

(** The cost that is reported for a last day of this month is the day's
    cost when that is truthy and "unknown" in every other case. *)
Lemma latest_day_cost_truthy tm d kwh date (last_month_by_day : pyval) w :
  last tm = Some d -> d !! "kwh" = Some kwh -> d !! "date" = Some date ->
  exists cost,
    latest_day (series tm) last_month_by_day w
      = (Returns (kwh, cost, date), w)
    /\ match d !! "cost" with
       | Some c => cost = if truthy c then c else unknown
       | None => cost = unknown
       end.
Proof.
  intros Hlast Hkwh Hdate. eexists. split.
  - by apply latest_day_this_month.
  - by destruct (d !! "cost").
Qed.

End LatestDay.

(* ================================================================= *)
(** * The safe-fetch wrapper *)

Section SafeFetch.

Variable c : client.

Lemma py_len_sentinels (n : Z) :
  py_len (PList (replicate (Z.to_nat n) unavailable))
    = Returns (Z.of_nat (Z.to_nat n)).
Proof. simpl. by rewrite length_replicate. Qed.

(** A call that returns, with one expected value: no check at all. *)
Lemma safe_fetch_one_returned func v w :
  result (c func) = Return v ->
  _safe_fetch c func 1 w = (Returns v, after_call c func w).
Proof.
  intros Hres. unfold _safe_fetch, bind, catch, call. by rewrite Hres.
Qed.

(** A call that returns, with several expected values: the length check. *)
Lemma safe_fetch_many_returned func n v w :
  n <> 1 ->
  result (c func) = Return v ->
  _safe_fetch c func n w
    = (match py_len v with
       | Returns k =>
           if k =? n then Returns v else Raises (ArityMismatch n k)
       | Raises e => Raises e
       end, after_call c func w).
Proof.
  intros Hn Hres. unfold _safe_fetch, bind, catch, call, lift. rewrite Hres.
  destruct (Z.eqb_spec n 1); [done|].
  destruct (py_len v) as [k|e]; [|done].
  by destruct (Z.eqb_spec k n).
Qed.

(** A call that raises a classified error. *)
Lemma safe_fetch_api_error func n e w :
  result (c func) = Raise e ->
  isinstance_CSGAPIError e = true ->
  0 <= n ->
  _safe_fetch c func n w
    = (Returns (sentinels n),
       World (trace w
                ++ [Called func;
                    Logged ERROR
                      "Error fetching data in coordinator: function %s, %s"])
             (clock w + latency (c func)) (last_update_day w)).
Proof.
  intros Hres Hapi Hn.
  unfold _safe_fetch, sentinels, bind, catch, call, lift, log, mret.
  rewrite Hres. simpl. rewrite Hapi. simpl. rewrite <- app_assoc. simpl.
  destruct (Z.eqb_spec n 1); [done|].
  rewrite py_len_sentinels, Z2Nat.id by done.
  by rewrite Z.eqb_refl.
Qed.

(** A call that raises anything else. *)
Lemma safe_fetch_other_error func n e w :
  result (c func) = Raise e ->
  isinstance_CSGAPIError e = false ->
  _safe_fetch c func n w = (Raises (ClientRaised e), after_call c func w).
Proof.
  intros Hres Hapi. unfold _safe_fetch, bind, catch, call, raise.
  rewrite Hres. simpl. by rewrite Hapi.
Qed.

(** C10: with one expected value the result of the call is handed on as it
    is: a returned value of any shape is returned, a classified error gives
    the sentinel and any other exception goes through.  The arity error is
    raised only where more than one value is expected. *)
Theorem safe_fetch_arity_one_unchecked (func : request) (w : world) :
  fst (_safe_fetch c func 1 w)
    = match result (c func) with
      | Return v => Returns v
      | Raise e =>
          if isinstance_CSGAPIError e then Returns unavailable
          else Raises (ClientRaised e)
      end
  /\ forall num_ret expected got,
       1 <= num_ret ->
       fst (_safe_fetch c func num_ret w)
         = Raises (ArityMismatch expected got) ->
       1 < num_ret /\ expected = num_ret.
Proof.
  split.
  - destruct (result (c func)) as [v|e] eqn:Hres.
    + by rewrite (safe_fetch_one_returned func v w Hres).
    + destruct (isinstance_CSGAPIError e) eqn:Hapi.
      * by rewrite (safe_fetch_api_error func 1 e w Hres Hapi).
      * by rewrite (safe_fetch_other_error func 1 e w Hres Hapi).
  - intros n expected got Hpos Hraise.
    destruct (Z.eq_dec n 1) as [->|Hn].
    + exfalso. destruct (result (c func)) as [v|e] eqn:Hres.
      * by rewrite (safe_fetch_one_returned func v w Hres) in Hraise.
      * destruct (isinstance_CSGAPIError e) eqn:Hapi.
        -- by rewrite (safe_fetch_api_error func 1 e w Hres Hapi) in Hraise.
        -- by rewrite (safe_fetch_other_error func 1 e w Hres Hapi)
             in Hraise.
    + split; [lia|].
      destruct (result (c func)) as [v|e] eqn:Hres.
      * rewrite (safe_fetch_many_returned func n v w Hn Hres) in Hraise.
        destruct v; simpl in Hraise; try discriminate;
          destruct (_ =? n) in Hraise; try discriminate;
          by injection Hraise.
      * destruct (isinstance_CSGAPIError e) eqn:Hapi.
        -- rewrite (safe_fetch_api_error func n e w Hres Hapi) in Hraise;
             [done|lia].
        -- by rewrite (safe_fetch_other_error func n e w Hres Hapi)
             in Hraise.
Qed.

End SafeFetch.

(** A balance call that hands back three values where two are expected. *)
Lemma safe_fetch_arity_one_unchecked_witness :
  let c := fun _ => Response 1 (Return (PTuple [PNum 1; PNum 2; PNum 3])) in
  let w := World [] 0 None in
  fst (_safe_fetch c (get_balance_and_arrears "0123") 2 w)
    = Raises (ArityMismatch 2 3)
  /\ fst (_safe_fetch c (get_balance_and_arrears "0123") 1 w)
      = Returns (PTuple [PNum 1; PNum 2; PNum 3])
  /\ 1 < 2.
Proof.
  intros c w.
  destruct (safe_fetch_arity_one_unchecked c (get_balance_and_arrears "0123")
              w) as [Hone Hmany].
  split; [reflexivity|]. split; [exact Hone|].
  apply (Hmany 2 2 3); [lia | reflexivity].
Defined.

(* ================================================================= *)
(** * Last month *)

Section LastMonth.

Variable c : client.

Lemma last_month_of_spec (this_year this_month : Z) :
  last_month_of this_year this_month
    = if this_month =? 1 then (this_year - 1, 12)
      else (this_year, this_month - 1).
Proof.
  unfold last_month_of.
  destruct (Z.eqb_spec (this_month - 1) 0), (Z.eqb_spec this_month 1);
    done || lia.
Qed.

Lemma called_after_call (func : request) (w : world) :
  Called func ∈ trace (after_call c func w).
Proof. simpl. rewrite elem_of_app, list_elem_of_singleton. by right. Qed.

(** C4, as the code has it: last month is fetched from the usage feed of
    the previous calendar month when the policy says to update it, or when
    this month's merged series is empty or unavailable.  The call is then
    made; a returned pair gives the two fields and a classified error gives
    two "unavailable".  Otherwise, that is when the policy says not to
    update and this month's series has a day, no call is made and both
    fields are "unchanged". *)
Theorem last_month_fetched_or_unchanged
    (account : string) (this_year this_month : Z)
    (update_last_month : bool) (this_month_by_day : pyval) (w : world) :
  let last_month_ym := last_month_of this_year this_month in
  let func := get_month_daily_usage_detail account last_month_ym in
  let run :=
    fetch_last_month c account last_month_ym update_last_month
      this_month_by_day w in
  last_month_ym
    = (if this_month =? 1 then (this_year - 1, 12)
       else (this_year, this_month - 1))
  /\ (update_last_month = true \/ this_month_by_day = unavailable
        \/ this_month_by_day = series [] ->
      Called func ∈ trace (snd run)
      /\ (forall kwh by_day,
            result (c func) = Return (PTuple [kwh; by_day]) ->
            fst run = Returns (kwh, by_day))
      /\ (forall e,
            result (c func) = Raise e -> isinstance_CSGAPIError e = true ->
            fst run = Returns (unavailable, unavailable)))
  /\ (forall d days,
        update_last_month = false ->
        this_month_by_day = series (d :: days) ->
        fst run = Returns (unchanged, unchanged)
        /\ trace (snd run)
           = trace w
               ++ [Logged INFO "Account %s, skipping getting last month data"]).
Proof.
  intros last_month_ym func run.
  split; [apply last_month_of_spec|]. split.
  - intros Hfetch.
    assert (Hrun : run = (let* ret := _safe_fetch c func 2 in
                          lift (unpack2 ret)) w).
    { unfold run, fetch_last_month.
      destruct Hfetch as [-> | [-> | ->]]; [done| |];
        by destruct update_last_month. }
    rewrite Hrun. unfold bind, lift. split; [|split].
    + destruct (result (c func)) as [v|e] eqn:Hres.
      * rewrite (safe_fetch_many_returned c func 2 v w) by done.
        destruct (py_len v) as [k|]; [destruct (k =? 2)|];
          apply called_after_call.
      * destruct (isinstance_CSGAPIError e) eqn:Hapi.
        -- rewrite (safe_fetch_api_error c func 2 e w) by done.
           simpl. rewrite elem_of_app, elem_of_cons. by right; left.
        -- rewrite (safe_fetch_other_error c func 2 e w) by done.
           apply called_after_call.
    + intros kwh by_day Hres.
      by rewrite (safe_fetch_many_returned c func 2 _ w ltac:(done) Hres).
    + intros e Hres Hapi.
      by rewrite (safe_fetch_api_error c func 2 e w Hres Hapi).
  - intros d days -> ->. done.
Qed.

End LastMonth.

(** The 7th of March with two days of data, and the 2nd of March with
    none yet. *)
Lemma last_month_fetched_or_unchanged_witness :
  let c := fun _ =>
    Response 1
      (Return (PTuple [PNum 70;
                       series [ {["date" := PStr "2024-02-29";
                                  "kwh" := PNum 5]} ]])) in
  let w := World [] 0 (Some 6) in
  fst (fetch_last_month c "0123" (last_month_of 2024 3) false
         (series [ {["date" := PStr "2024-03-06"; "kwh" := PNum 4]} ]) w)
    = Returns (unchanged, unchanged)
  /\ fst (fetch_last_month c "0123" (last_month_of 2024 3) true
            (series []) w)
     = Returns (PNum 70,
                series [ {["date" := PStr "2024-02-29"; "kwh" := PNum 5]} ]).
Proof.
  intros c w. split.
  - destruct (last_month_fetched_or_unchanged c "0123" 2024 3 false
      (series [ {["date" := PStr "2024-03-06"; "kwh" := PNum 4]} ]) w)
      as (_ & _ & Hskip).
    by destruct (Hskip _ [] eq_refl eq_refl) as [Hfields _].
  - destruct (last_month_fetched_or_unchanged c "0123" 2024 3 true
      (series []) w) as (_ & Hfetch & _).
    destruct (Hfetch (or_introl eq_refl)) as (_ & Hreturned & _).
    by apply Hreturned.
Defined.

(** C4 as it is worded fails: on the 7th, when the policy says not to
    update last month and this month has data, nothing is fetched and the
    fields are "unchanged"; on the 2nd, when the policy says to update, the
    call is made although this month has data. *)
Lemma last_month_policy_counterexample :
  let c := fun _ =>
    Response 1
      (Return (PTuple [PNum 70;
                       series [ {["date" := PStr "2024-02-29";
                                  "kwh" := PNum 5]} ]])) in
  let this_month_by_day :=
    series [ {["date" := PStr "2024-03-01"; "kwh" := PNum 4]} ] in
  fetch_last_month c "0123" (2024, 2) false this_month_by_day
      (World [] 0 (Some 6))
    = (Returns (unchanged, unchanged),
       World [Logged INFO "Account %s, skipping getting last month data"]
             0 (Some 6))
  /\ fetch_last_month c "0123" (2024, 2) true this_month_by_day
       (World [] 0 (Some 1))
     = (Returns (PNum 70,
                 series [ {["date" := PStr "2024-02-29"; "kwh" := PNum 5]} ]),
        World [Called (get_month_daily_usage_detail "0123" (2024, 2))]
              1 (Some 1)).
Proof. split; reflexivity. Qed.

(* ================================================================= *)
(** * What a cycle does to the world *)

Lemma bind_inv {A B} (m : M A) (k : A -> M B) w o w' :
  bind m k w = (o, w') ->
  (exists e, m w = (Raises e, w') /\ o = Raises e)
  \/ (exists a w1, m w = (Returns a, w1) /\ k a w1 = (o, w')).
Proof.
  unfold bind. destruct (m w) as [[a|e] w1]; intros Hrun.
  - right. by exists a, w1.
  - left. exists e. by injection Hrun as <- <-.
Qed.

Section Keeps.

Variable R : world -> world -> Prop.
Hypothesis R_refl : forall w, R w w.
Hypothesis R_trans : forall w1 w2 w3, R w1 w2 -> R w2 w3 -> R w1 w3.
Hypothesis R_call : forall c r w, R w (snd (call c r w)).
Hypothesis R_log :
  forall lvl msg w, lvl <> WARNING -> R w (snd (log lvl msg w)).

Lemma keeps_mret {A} (a : A) : keeps R (mret a).
Proof. intros w. apply R_refl. Qed.

Lemma keeps_raise {A} (e : exn) : keeps R (@raise A e).
Proof. intros w. apply R_refl. Qed.

Lemma keeps_lift {A} (o : outcome A) : keeps R (lift o).
Proof. intros w. apply R_refl. Qed.

Lemma keeps_get_last_update_day : keeps R get_last_update_day.
Proof. intros w. apply R_refl. Qed.

Lemma keeps_bind {A B} (m : M A) (k : A -> M B) :
  keeps R m -> (forall a, keeps R (k a)) -> keeps R (bind m k).
Proof.
  intros Hm Hk w. specialize (Hm w). unfold bind.
  destruct (m w) as [[a|e] w1]; simpl in *; [|done].
  eapply R_trans; [exact Hm | apply Hk].
Qed.

Lemma keeps_catch {A} (m : M A) (handler : exn -> M A) :
  keeps R m -> (forall e, keeps R (handler e)) -> keeps R (catch m handler).
Proof.
  intros Hm Hh w. specialize (Hm w). unfold catch.
  destruct (m w) as [[a|e] w1]; simpl in *; [done|].
  eapply R_trans; [exact Hm | apply Hh].
Qed.

Lemma keeps_call c r : keeps R (call c r).
Proof. intros w. apply R_call. Qed.

Lemma keeps_log lvl msg : lvl <> WARNING -> keeps R (log lvl msg).
Proof. intros Hlvl w. by apply R_log. Qed.

Ltac keeps_steps :=
  repeat first
    [ apply keeps_mret | apply keeps_raise | apply keeps_lift
    | apply keeps_call | apply keeps_get_last_update_day
    | apply keeps_log; discriminate
    | apply keeps_bind; [|intros ?]
    | apply keeps_catch; [|intros ?]
    | match goal with
      | |- keeps _ (if ?b then _ else _) => destruct b
      | |- keeps _ (let '(_, _) := ?p in _) => destruct p
      | |- keeps _ (match ?x with _ => _ end) => destruct x
      end ].

Lemma keeps_safe_fetch c func num_ret : keeps R (_safe_fetch c func num_ret).
Proof. unfold _safe_fetch. keeps_steps. Qed.

Lemma keeps_refresh_policy this_month this_day :
  keeps R (refresh_policy this_month this_day).
Proof. unfold refresh_policy. keeps_steps. Qed.

Lemma keeps_fetch_last_year c account last_year update_last_year :
  keeps R (fetch_last_year c account last_year update_last_year).
Proof. unfold fetch_last_year. keeps_steps. Qed.

Lemma keeps_fetch_last_month c account ym update_last_month this_month_by_day :
  keeps R
    (fetch_last_month c account ym update_last_month this_month_by_day).
Proof.
  unfold fetch_last_month. destruct (_ || _); keeps_steps.
Qed.

Lemma keeps_latest_day this_month_by_day last_month_by_day :
  keeps R (latest_day this_month_by_day last_month_by_day).
Proof. unfold latest_day. keeps_steps. Qed.

Lemma keeps_fetch_account c current_dt update_last_month update_last_year
    account :
  keeps R
    (fetch_account c current_dt update_last_month update_last_year account).
Proof.
  unfold fetch_account.
  repeat first
    [ apply keeps_safe_fetch | apply keeps_fetch_last_year
    | apply keeps_fetch_last_month | apply keeps_latest_day
    | progress keeps_steps ].
Qed.

Lemma keeps_fetch_accounts c current_dt update_last_month update_last_year
    accounts : forall data_ret,
  keeps R
    (fetch_accounts c current_dt update_last_month update_last_year accounts
       data_ret).
Proof.
  induction accounts as [|account rest IH]; intros data_ret; simpl.
  - apply keeps_mret.
  - apply keeps_bind; [apply keeps_fetch_account | intros snap; apply IH].
Qed.




End Keeps.

(** [csg_fetch_all] as a whole, for a relation that the write of the day
    marker respects as well. *)
Lemma keeps_csg_fetch_all (R : world -> world -> Prop) c cfg current_dt :
  (forall w, R w w) ->
  (forall w1 w2 w3, R w1 w2 -> R w2 w3 -> R w1 w3) ->
  (forall c r w, R w (snd (call c r w))) ->
  (forall lvl msg w, lvl <> WARNING -> R w (snd (log lvl msg w))) ->
  (forall d w, R w (snd (set_last_update_day d w))) ->
  keeps R (csg_fetch_all c cfg current_dt).
Proof.
  intros R_refl R_trans R_call R_log R_set.
  unfold csg_fetch_all. destruct (CONF_ACCOUNTS cfg) as [|account rest] eqn:Ha.
  - apply keeps_bind; [done | by apply keeps_log | intros; by apply keeps_mret].
  - rewrite <- Ha.
    repeat first
      [ apply keeps_fetch_accounts; done
      | apply keeps_refresh_policy; done
      | apply keeps_call; done
      | apply keeps_log; done
      | apply keeps_mret; done
      | intros w; apply R_set
      | apply keeps_bind; [done| |intros ?]
      | match goal with
        | |- keeps _ (if ?b then _ else _) => destruct b
        | |- keeps _ (let '(_, _) := ?p in _) => destruct p
        end ].
Qed.



Lemma quiet_refl w : quiet w w.
Proof. exists []. by rewrite app_nil_r. Qed.

Lemma quiet_trans w1 w2 w3 : quiet w1 w2 -> quiet w2 w3 -> quiet w1 w3.
Proof.
  intros (ev1 & H1 & Hq1) (ev2 & H2 & Hq2). exists (ev1 ++ ev2). split.
  - by rewrite H2, H1, app_assoc.
  - by apply Forall_app.
Qed.

Lemma quiet_one w ev :
  (forall msg, ev <> Logged WARNING msg) ->
  quiet w (World (trace w ++ [ev]) (clock w) (last_update_day w)).
Proof. intros Hev. exists [ev]. split; [done|]. by constructor. Qed.



Lemma csg_fetch_all_quiet c cfg current_dt w :
  quiet w (snd (csg_fetch_all c cfg current_dt w)).
Proof.
  apply keeps_csg_fetch_all.
  - apply quiet_refl.
  - apply quiet_trans.
  - intros c' r w0. by apply quiet_one.
  - intros lvl msg w0 Hlvl. apply quiet_one. congruence.
  - intros d w0. exists []. simpl. by rewrite app_nil_r.
Qed.

(* ================================================================= *)
(** * The cycle as the coordinator sees it *)

Section Cycle.

Variables (c : client) (cfg : config) (current_dt : datetime).

(** The cycle in terms of the job, its starting world and its deadline. *)
Lemma async_update_data_unfold (w : world) :
  _async_update_data c cfg current_dt w
    = match with_timeout (Z.max (CONF_UPDATE_TIMEOUT cfg) 60)
              (csg_fetch_all c cfg current_dt) (start_of_job cfg w) with
      | (Returns result, w') => (Succeeded result, w')
      | (Raises err, w') =>
          if is_NotLoggedIn err then
            (UpdateFailed "Session invalidated unexpectedly", w')
          else if is_CSGAPIError err then
            (UpdateFailed ("Error communicating with API: " +:+ exn_str err),
             w')
          else if is_TimeoutError err then
            (UpdateFailed ("Timeout communicating with API: " +:+ exn_str err),
             w')
          else
            (UpdateFailed ("Unexpected exception: " +:+ exn_str err),
             snd ((log ERROR "Unexpected exception: %s" >> log ERROR "%s")
                    w'))
      end.
Proof.
  unfold _async_update_data, start_of_job.
  destruct (Z.ltb_spec (CONF_UPDATE_TIMEOUT cfg) 60).
  - by rewrite Z.max_r by lia.
  - by rewrite Z.max_l by lia.
Qed.



(** The events of a cycle after the start of its job: no warning among
    them. *)
Lemma cycle_quiet (w : world) :
  quiet (start_of_job cfg w) (snd (_async_update_data c cfg current_dt w)).
Proof.
  rewrite async_update_data_unfold. unfold with_timeout.
  pose proof (csg_fetch_all_quiet c cfg current_dt (start_of_job cfg w))
    as Hjob.
  destruct (csg_fetch_all c cfg current_dt (start_of_job cfg w)) as [o w'].
  cbn [snd] in Hjob.
  destruct (_ <? _).
  - cbn. exists []. by rewrite app_nil_r.
  - destruct o as [data|e]; [done|].
    destruct (is_NotLoggedIn e); [done|].
    destruct (is_CSGAPIError e); [done|].
    destruct (is_TimeoutError e); [done|].
    eapply quiet_trans; [exact Hjob|]. cbn.
    exists [Logged ERROR "Unexpected exception: %s"; Logged ERROR "%s"].
    split; [by rewrite <- app_assoc|]. by repeat constructor.
Qed.

(** C8: a configured timeout below 60 seconds is replaced by 60: the
    warning is in the trace, a job that needs more than 60 seconds fails
    the cycle with the timeout reason and a job that returns within 60
    seconds succeeds, whatever the configured value was.  A configured
    timeout of 60 or more is the deadline itself, and no warning is
    recorded. *)
Theorem timeout_floor (w : world) :
  let timeout := CONF_UPDATE_TIMEOUT cfg in
  let warning :=
    Logged WARNING "Timeout value too low, setting to 60 seconds" in
  let cycle := _async_update_data c cfg current_dt w in
  (timeout < 60 ->
     let w1 := World (trace w ++ [warning]) (clock w) (last_update_day w) in
     let job := csg_fetch_all c cfg current_dt w1 in
     let duration := clock (snd job) - clock w1 in
     warning ∈ trace (snd cycle)
     /\ (60 < duration ->
           fst cycle = UpdateFailed "Timeout communicating with API: ")
     /\ (duration <= 60 ->
         forall data,
           fst job = Returns data -> cycle = (Succeeded data, snd job)))
  /\ (60 <= timeout ->
      let job := csg_fetch_all c cfg current_dt w in
      let duration := clock (snd job) - clock w in
      (forall msg,
         Logged WARNING msg ∈ trace (snd cycle) ->
         Logged WARNING msg ∈ trace w)
      /\ (timeout < duration ->
            fst cycle = UpdateFailed "Timeout communicating with API: ")
      /\ (duration <= timeout ->
          forall data,
            fst job = Returns data -> cycle = (Succeeded data, snd job))).
Proof.
  intros timeout warning cycle.
  pose proof (cycle_quiet w) as (events & Htrace & Hquiet).
  fold cycle in Htrace.
  assert (Hcycle : cycle = _async_update_data c cfg current_dt w) by done.
  rewrite async_update_data_unfold in Hcycle. unfold with_timeout in Hcycle.
  unfold start_of_job in Htrace, Hcycle. fold timeout in Htrace, Hcycle.
  split.
  - intros Hlow w1 job duration.
    assert (Hlt : (timeout <? 60) = true) by by apply Z.ltb_lt.
    rewrite Hlt in Htrace, Hcycle. cbn [trace] in Htrace.
    rewrite Z.max_r in Hcycle by lia.
    fold warning w1 job duration in Hcycle. split; [|split].
    + rewrite Htrace, !elem_of_app, list_elem_of_singleton. by left; right.
    + intros Hlate. rewrite Hcycle. subst duration. clearbody job.
      destruct job as [o w']. cbn [snd] in Hlate.
      by destruct (Z.ltb_spec 60 (clock w' - clock w1)); [|lia].
    + intros Hintime data Hdata. rewrite Hcycle. subst duration.
      clearbody job. destruct job as [o w']. cbn [fst snd] in *. subst o.
      by destruct (Z.ltb_spec 60 (clock w' - clock w1)); [lia|].
  - intros Hhigh job duration.
    assert (Hge : (timeout <? 60) = false) by by apply Z.ltb_ge.
    rewrite Hge in Htrace, Hcycle.
    rewrite Z.max_l in Hcycle by lia.
    fold job duration in Hcycle. split; [|split].
    + intros msg. rewrite Htrace, elem_of_app. intros [Hin|Hin]; [done|].
      rewrite Forall_forall in Hquiet. by destruct (Hquiet _ Hin msg).
    + intros Hlate. rewrite Hcycle. subst duration. clearbody job.
      destruct job as [o w']. cbn [snd] in Hlate.
      by destruct (Z.ltb_spec timeout (clock w' - clock w)); [|lia].
    + intros Hintime data Hdata. rewrite Hcycle. subst duration.
      clearbody job. destruct job as [o w']. cbn [fst snd] in *. subst o.
      by destruct (Z.ltb_spec timeout (clock w' - clock w)); [lia|].
Qed.

End Cycle.


(** A timeout of 30 seconds and nine calls of 5 seconds each: the cycle
    runs under the floor of 60 seconds, succeeds, and has the warning. *)
Lemma timeout_floor_witness :
  let cycle :=
    _async_update_data (sample_client 5) (Config ["0123"] 30)
      (DateTime 2024 3 7) (World [] 0 None) in
  Logged WARNING "Timeout value too low, setting to 60 seconds"
    ∈ trace (snd cycle)
  /\ exists data, fst cycle = Succeeded data.
Proof.
  intros cycle.
  destruct (timeout_floor (sample_client 5) (Config ["0123"] 30)
              (DateTime 2024 3 7) (World [] 0 None)) as [Hlow _].
  destruct Hlow as (Hwarning & _ & Hintime); [simpl; lia|].
  split; [exact Hwarning|].
  eexists. unfold cycle.
  erewrite Hintime;
    [reflexivity | vm_compute; discriminate | vm_compute; reflexivity].
Defined.

(* ================================================================= *)
(** * Runs that return *)

Lemma bind_returns {A B} (m : M A) (k : A -> M B) w b w' :
  bind m k w = (Returns b, w') ->
  exists a w1, m w = (Returns a, w1) /\ k a w1 = (Returns b, w').
Proof.
  intros Hrun. apply bind_inv in Hrun as [(e & _ & [=]) | Hrun]. exact Hrun.
Qed.

Lemma lift_returns {A} (o : outcome A) w a w' :
  lift o w = (Returns a, w') -> o = Returns a /\ w' = w.
Proof. by intros [= -> ->]. Qed.

Lemma obind_returns {A B} (o : outcome A) (k : A -> outcome B) b :
  obind o k = Returns b -> exists a, o = Returns a /\ k a = Returns b.
Proof. destruct o as [a|e]; [|done]. intros Hk. by exists a. Qed.

(** Splits the hypothesis [H] that a sequence of steps returned into one
    hypothesis per step. *)
Ltac invert_run H :=
  repeat first
    [ apply bind_returns in H as (? & ? & ? & H)
    | match type of H with
      | (let '(_, _) := ?p in _) _ = _ => destruct p
      end ].

Section Returned.

Variable c : client.

(** What [_safe_fetch] returned is the answer of the client or the
    sentinels. *)
Lemma safe_fetch_returned func n w ret w' :
  _safe_fetch c func n w = (Returns ret, w') ->
  result (c func) = Return ret
  \/ exists e,
       result (c func) = Raise e /\ isinstance_CSGAPIError e = true
       /\ ret = sentinels n.
Proof.
  destruct (result (c func)) as [v|e] eqn:Hres.
  - destruct (Z.eq_dec n 1) as [->|Hn].
    + rewrite (safe_fetch_one_returned c _ _ _ Hres). intros [= <- _].
      by left.
    + rewrite (safe_fetch_many_returned c _ _ _ _ Hn Hres).
      destruct (py_len v) as [k|]; [|done].
      destruct (k =? n); [|done]. intros [= <- _]. by left.
  - destruct (isinstance_CSGAPIError e) eqn:Hapi.
    + intros Hrun. right. exists e. split; [done|]. split; [done|].
      unfold _safe_fetch, sentinels, bind, catch, call, lift, log, mret
        in *.
      rewrite Hres in Hrun. simpl in Hrun. rewrite Hapi in Hrun.
      simpl in Hrun. destruct (n =? 1); [by injection Hrun as <-|].
      destruct (py_len _) as [k|]; [|done].
      destruct (negb (k =? n)); [done|]. by injection Hrun as <-.
    + by rewrite (safe_fetch_other_error c _ _ _ _ Hres Hapi).
Qed.

Hypothesis c_typed : well_typed c.

Lemma balance_returned account w ret w' bal arr :
  _safe_fetch c (get_balance_and_arrears account) 2 w = (Returns ret, w') ->
  unpack2 ret = Returns (bal, arr) ->
  number_or_unavailable bal /\ number_or_unavailable arr.
Proof.
  intros [Hres | (e & _ & _ & ->)]%safe_fetch_returned Hunpack.
  - apply c_typed in Hres as (b & a & ->). injection Hunpack as <- <-.
    split; left; by eexists.
  - injection Hunpack as <- <-. split; by right.
Qed.

Lemma yesterday_returned account w ret w' :
  _safe_fetch c (get_yesterday_kwh account) 1 w = (Returns ret, w') ->
  number_or_unavailable ret.
Proof.
  intros [Hres | (e & _ & _ & ->)]%safe_fetch_returned.
  - apply c_typed in Hres as (k & ->). left. by eexists.
  - by right.
Qed.

Lemma year_stats_returned account y w ret w' cost kwh by_month :
  _safe_fetch c (get_year_month_stats account y) 3 w = (Returns ret, w') ->
  unpack3 ret = Returns (cost, kwh, by_month) ->
  number_or_unavailable cost /\ number_or_unavailable kwh.
Proof.
  intros [Hres | (e & _ & _ & ->)]%safe_fetch_returned Hunpack.
  - apply c_typed in Hres as (x & k & m & ->). injection Hunpack as <- <- <-.
    split; left; by eexists.
  - injection Hunpack as <- <- <-. split; by right.
Qed.

(** The usage feed: total and series are both there or both unavailable. *)
Lemma usage_returned account ym w ret w' kwh by_day :
  _safe_fetch c (get_month_daily_usage_detail account ym) 2 w
    = (Returns ret, w') ->
  unpack2 ret = Returns (kwh, by_day) ->
  (kwh = unavailable /\ by_day = unavailable)
  \/ exists x days,
       kwh = PNum x /\ by_day = series days /\ Forall typed_day days.
Proof.
  intros [Hres | (e & _ & _ & ->)]%safe_fetch_returned Hunpack.
  - apply c_typed in Hres as (x & days & -> & Hdays).
    injection Hunpack as <- <-. right. by exists x, days.
  - injection Hunpack as <- <-. by left.
Qed.

Lemma cost_returned account ym w ret w' cost kwh ladder by_day :
  _safe_fetch c (get_month_daily_cost_detail account ym) 4 w
    = (Returns ret, w') ->
  unpack4 ret = Returns (cost, kwh, ladder, by_day) ->
  (cost = unavailable /\ kwh = unavailable /\ ladder = unavailable
   /\ by_day = unavailable)
  \/ exists x y fields days,
       cost = PNum x /\ kwh = PNum y /\ ladder = PDict fields
       /\ by_day = series days /\ typed_ladder fields
       /\ Forall typed_day days.
Proof.
  intros [Hres | (e & _ & _ & ->)]%safe_fetch_returned Hunpack.
  - apply c_typed in Hres as (x & y & fields & days & -> & Hl & Hdays).
    injection Hunpack as <- <- <- <-. right. by exists x, y, fields, days.
  - injection Hunpack as <- <- <- <-. by left.
Qed.

(** The ladder fields are concrete or unavailable. *)
Lemma ladder_field_returned fields key x :
  typed_ladder fields ->
  ladder_field (PDict fields) key = Returns x ->
  concrete x \/ x = unavailable.
Proof.
  intros Hl. unfold ladder_field. simpl.
  destruct (fields !! key) as [y|] eqn:Hy; [|done]. simpl.
  destruct (Hl key y Hy) as [-> | Hy'].
  - intros [= <-]. by right.
  - destruct y; try done; intros [= <-]; by left.
Qed.

Lemma extract_ladder_returned ladder stage remaining tariff start :
  ladder = unavailable
    \/ (exists fields, ladder = PDict fields /\ typed_ladder fields) ->
  extract_ladder ladder = Returns (stage, remaining, tariff, start) ->
  Forall (fun x => concrete x \/ x = unavailable)
    [stage; remaining; tariff; start].
Proof.
  intros [-> | (fields & -> & Hl)]; unfold extract_ladder.
  - intros [= <- <- <- <-].
    repeat (apply Forall_cons_2; [by right|]). apply Forall_nil_2.
  - change (negb (py_eq_str (PDict fields) STATE_UNAVAILABLE)) with true.
    cbn iota. intros Hrun.
    apply obind_returns in Hrun as (x1 & H1 & Hrun).
    apply obind_returns in Hrun as (x2 & H2 & Hrun).
    apply obind_returns in Hrun as (x3 & H3 & Hrun).
    apply obind_returns in Hrun as (x4 & H4 & Hrun).
    injection Hrun as <- <- <- <-.
    repeat (apply Forall_cons_2; [by eapply ladder_field_returned|]).
    apply Forall_nil_2.
Qed.

(** The copying loop keeps the days typed. *)
Lemma copy_costs_typed cs : forall idx us v,
  Forall typed_day cs -> Forall typed_day us ->
  copy_costs idx (PDict <$> cs) (series us) = Returns v ->
  exists merged, v = series merged /\ Forall typed_day merged.
Proof.
  induction cs as [|cday cs IH]; intros idx us v Hcs Hus; simpl.
  - intros [= <-]. by exists us.
  - apply Forall_cons in Hcs as [Hcday Hcs].
    destruct (cday !! "cost") as [x|] eqn:Hx; [|done]. simpl.
    unfold series at 1. simpl. rewrite list_lookup_fmap.
    destruct (us !! idx) as [u|] eqn:Hu; [|done]. simpl.
    rewrite <- list_fmap_insert. apply IH; [done|].
    apply Forall_insert; [done|].
    eapply Forall_lookup_1 in Hus as [Hkwh Hcost]; [|exact Hu].
    destruct Hcday as [_ Hcost']. split.
    + intros kwh. rewrite lookup_insert_ne by done. apply Hkwh.
    + intros cost. rewrite lookup_insert_eq. intros [= <-]. by apply Hcost'.
Qed.

Lemma merge_this_month_typed kwh_usage by_day_usage kwh_cost by_day_cost
    this_month_by_day this_month_kwh :
  (kwh_usage = unavailable /\ by_day_usage = unavailable)
    \/ (exists x days,
          kwh_usage = PNum x /\ by_day_usage = series days
          /\ Forall typed_day days) ->
  (kwh_cost = unavailable /\ by_day_cost = unavailable)
    \/ (exists x days,
          kwh_cost = PNum x /\ by_day_cost = series days
          /\ Forall typed_day days) ->
  merge_this_month kwh_usage by_day_usage kwh_cost by_day_cost
    = Returns (this_month_by_day, this_month_kwh) ->
  number_or_unavailable this_month_kwh /\ typed_series this_month_by_day.
Proof.
  intros [[-> ->] | (x & us & -> & -> & Hus)]
         [[-> ->] | (y & cs & -> & -> & Hcs)]; unfold merge_this_month.
  - intros [= <- <-]. split; [by right | by left].
  - intros [= <- <-]. split; [left; by eexists | right; by eexists].
  - intros [= <- <-]. split; [left; by eexists | right; by eexists].
  - rewrite !series_available, !py_len_series. cbn [andb obind py_eq_str].
    destruct (_ >=? _).
    + intros [= <- <-]. split; [left; by eexists | right; by eexists].
    + cbn [py_iter series obind].
      destruct (copy_costs 0 (PDict <$> cs) (series us)) as [v|] eqn:Hcopy;
        [|done].
      intros [= <- <-]. split; [left; by eexists|].
      right. exact (copy_costs_typed cs 0%nat us v Hcs Hus Hcopy).
Qed.

Lemma last_month_returned account ym update_last_month this_month_by_day
    w kwh by_day w' :
  fetch_last_month c account ym update_last_month this_month_by_day w
    = (Returns (kwh, by_day), w') ->
  (kwh = unchanged /\ by_day = unchanged)
  \/ (kwh = unavailable /\ by_day = unavailable)
  \/ exists x days,
       kwh = PNum x /\ by_day = series days /\ Forall typed_day days.
Proof.
  unfold fetch_last_month. destruct (_ || _).
  - intros Hrun. right. invert_run Hrun.
    apply lift_returns in Hrun as [Hunpack _].
    by eapply usage_returned.
  - intros [= <- <- _]. by left.
Qed.

(** The latest day: a kwh that is a number or unavailable, and a cost that
    is a number, unavailable or unknown. *)
Lemma latest_day_returned this_month_by_day last_month_by_day w
    kwh cost date w' :
  typed_series this_month_by_day ->
  last_month_by_day = unchanged \/ typed_series last_month_by_day ->
  latest_day this_month_by_day last_month_by_day w
    = (Returns (kwh, cost, date), w') ->
  number_or_unavailable kwh
  /\ ((exists x, cost = PNum x) \/ cost = unavailable \/ cost = unknown).
Proof.
  assert (Hlast : forall days d, Forall typed_day days ->
            index_last (series days) = Returns d ->
            exists day, d = PDict day /\ typed_day day).
  { intros days d Hdays. unfold series. simpl. rewrite fmap_last.
    destruct (last days) as [day|] eqn:Hday; [|done]. intros [= <-].
    exists day. split; [done|].
    apply last_Some_elem_of in Hday. by eapply Forall_forall in Hdays. }
  assert (Hfallback :
            last_month_by_day = unchanged \/ typed_series last_month_by_day ->
            (let* last_month_has_data :=
               if negb (py_in_strs last_month_by_day
                          [STATE_UNAVAILABLE; STATE_UPDATE_UNCHANGED]) then
                 let* n := lift (py_len last_month_by_day) in mret (n >=? 1)
               else mret false in
             if last_month_has_data then
               let* latest_day_kwh :=
                 lift (let? d := index_last last_month_by_day in
                       getitem d "kwh") in
               let latest_day_cost := unknown in
               let* latest_day_date :=
                 lift (let? d := index_last last_month_by_day in
                       getitem d "date") in
               mret (latest_day_kwh, latest_day_cost, latest_day_date)
             else
               log ERROR "Account %s, no latest day data available" >>
               mret (unavailable, unavailable, unavailable)) w
            = (Returns (kwh, cost, date), w') ->
            number_or_unavailable kwh
            /\ ((exists x, cost = PNum x) \/ cost = unavailable
                \/ cost = unknown)).
  { intros [-> | [-> | (days & -> & Hdays)]].
    - intros [= <- <- _ _]. split; [by right | right; by left].
    - intros [= <- <- _ _]. split; [by right | right; by left].
    - intros Hrun. apply bind_returns in Hrun as (b & w1 & Hb & Hrun).
      destruct b.
      + invert_run Hrun. injection Hrun as <- <- <- _.
        match goal with
        | H : lift (let? d := _ in getitem d "kwh") _ = _ |- _ =>
            apply lift_returns in H as [H _];
            apply obind_returns in H as (d & Hd & Hkwh)
        end.
        apply Hlast in Hd as (day & -> & [Hday _]); [|done].
        simpl in Hkwh. destruct (day !! "kwh") as [k|] eqn:Hk; [|done].
        injection Hkwh as <-. split; [by apply Hday | right; by right].
      + injection Hrun as <- <- _ _. split; [by right | right; by left]. }
  intros [-> | (days & -> & Hdays)] Hlm; unfold latest_day.
  - destruct (py_eq_str last_month_by_day STATE_UNAVAILABLE) eqn:Hu.
    + intros [= <- <- _ _]. split; [by right | right; by left].
    + change (py_eq_str unavailable STATE_UNAVAILABLE) with true.
      cbn [andb negb].
      intros Hrun. apply bind_returns in Hrun as (b & w1 & [= <- <-] & Hrun).
      by apply Hfallback.
  - rewrite series_available. cbn [andb negb].
    intros Hrun. apply bind_returns in Hrun as (b & w1 & Hb & Hrun).
    destruct b.
    + invert_run Hrun. injection Hrun as <- <- <- _.
      repeat match goal with
      | H : lift (let? d := _ in _) _ = _ |- _ =>
          apply lift_returns in H as [H _];
          apply obind_returns in H as (? & ? & H)
      end.
      match goal with
      | H : getitem ?d "kwh" = _, Hd : index_last _ = Returns ?d |- _ =>
          apply Hlast in Hd as (day & -> & [Hday _]); [|done];
          simpl in H; destruct (day !! "kwh") as [k|] eqn:Hk; [|done];
          injection H as <-
      end.
      split; [by apply Hday|].
      match goal with
      | H : dict_get ?d "cost" = _, Hd : index_last _ = Returns ?d |- _ =>
          apply Hlast in Hd as (day' & -> & [_ Hday']); [|done];
          simpl in H; injection H as <-
      end.
      unfold py_or. destruct (day' !! "cost") as [x|] eqn:Hx; simpl.
      * destruct (Hday' x eq_refl) as (q & ->). simpl.
        destruct (negb (Qeq_bool q 0)); [left; by eexists | right; by right].
      * right; by right.
    + apply bind_returns in Hb as (n & w2 & [_ ->]%lift_returns & [= _ <-]).
      by apply Hfallback.
Qed.

Lemma last_year_returned account last_year update_last_year w
    cost kwh by_month w' :
  fetch_last_year c account last_year update_last_year w
    = (Returns (cost, kwh, by_month), w') ->
  (cost = unchanged /\ kwh = unchanged)
  \/ (number_or_unavailable cost /\ number_or_unavailable kwh).
Proof.
  unfold fetch_last_year. destruct update_last_year.
  - intros Hrun. right. invert_run Hrun.
    apply lift_returns in Hrun as [Hunpack _].
    by eapply year_stats_returned.
  - intros [= <- <- _ _]. by left.
Qed.

Lemma number_three_state v : number_or_unavailable v -> three_state v.
Proof. intros [(x & ->) | ->]; [by left | right; by left]. Qed.

Lemma ladder_three_state v : concrete v \/ v = unavailable -> three_state v.
Proof. intros [Hv | ->]; [by left | right; by left]. Qed.

(** A run of [fetch_account] that returned went through every step. *)
Lemma fetch_account_steps current_dt update_last_month update_last_year
    account w snap w' :
  fetch_account c current_dt update_last_month update_last_year account w
    = (Returns snap, w') ->
  account_steps c current_dt update_last_month update_last_year account w
    snap.
Proof.
  unfold fetch_account. intros Hrun. invert_run Hrun.
  repeat match goal with
         | H : lift _ _ = (Returns _, _) |- _ =>
             apply lift_returns in H as [H ->]
         end.
  injection Hrun as <- _. unfold account_steps. cbn.
  by repeat eexists.
Qed.

(** The scalar fields of a snapshot of typed answers: every one is in one
    of the three states, but for the cost of the latest day, which can be
    unknown. *)
Lemma fetch_account_returned current_dt update_last_month update_last_year
    account w snap w' :
  fetch_account c current_dt update_last_month update_last_year account w
    = (Returns snap, w') ->
  forall f, f ∈ scalar_fields ->
    three_state (field_value f snap)
    \/ (f = LATEST_DAY_COST /\ field_value f snap = unknown).
Proof.
  intros Hrun. apply fetch_account_steps in Hrun.
  destruct Hrun as
    (w1 & w2 & w3 & w4 & w5 & w6 & w7 & w8 & ret_balance & ret_this_year
     & ret_usage & ret_cost & kwh_u & by_day_u & kwh_c & ladder & by_day_c
     & Hbal & Ubal & Hyesterday & Hyear & Uyear & Husage & Uusage & Hcost
     & Ucost & Hladder & Hmerge & Hlast_year & Hlast_month & Hlatest).
  destruct (balance_returned _ _ _ _ _ _ Hbal Ubal) as [Tbal Tarr].
  pose proof (yesterday_returned _ _ _ _ Hyesterday) as Tyesterday.
  destruct (year_stats_returned _ _ _ _ _ _ _ _ Hyear Uyear)
    as [Tyear_cost Tyear_kwh].
  pose proof (usage_returned _ _ _ _ _ _ _ Husage Uusage) as Tusage.
  pose proof (cost_returned _ _ _ _ _ _ _ _ _ Hcost Ucost) as Tcost.
  assert (Tladder : Forall (fun x => concrete x \/ x = unavailable)
            [SUFFIX_CURRENT_LADDER snap;
             SUFFIX_CURRENT_LADDER_REMAINING_KWH snap;
             SUFFIX_CURRENT_LADDER_TARIFF snap;
             ATTR_KEY_CURRENT_LADDER_START_DATE snap]).
  { eapply extract_ladder_returned; [|exact Hladder].
    destruct Tcost as [(_ & _ & -> & _) | (? & ? & fields & ? & _ & _ & ->
                                            & _ & Hfields & _)];
      [by left | right; by exists fields]. }
  assert (Tthis_month_cost : number_or_unavailable
            (SUFFIX_THIS_MONTH_COST snap)).
  { destruct Tcost as [(-> & _) | (x & ? & ? & ? & -> & _)];
      [by right | left; by eexists]. }
  assert (Tcost_series :
            (kwh_c = unavailable /\ by_day_c = unavailable)
            \/ exists y days,
                 kwh_c = PNum y /\ by_day_c = series days
                 /\ Forall typed_day days).
  { destruct Tcost as
      [(_ & -> & _ & ->) | (? & y & ? & days & _ & -> & _ & -> & _ & Hdays)];
      [by left | right; by exists y, days]. }
  destruct (merge_this_month_typed _ _ _ _ _ _ Tusage Tcost_series Hmerge)
    as [Tmonth_kwh Tmonth].
  pose proof (last_year_returned _ _ _ _ _ _ _ _ Hlast_year) as Tlast_year.
  pose proof (last_month_returned _ _ _ _ _ _ _ _ Hlast_month)
    as Tlast_month.
  assert (Tlast_series :
            ATTR_KEY_LAST_MONTH_BY_DAY snap = unchanged
            \/ typed_series (ATTR_KEY_LAST_MONTH_BY_DAY snap)).
  { destruct Tlast_month as
      [[_ ->] | [[_ ->] | (? & days & _ & -> & Hdays)]];
      [by left | right; by left | right; right; by exists days]. }
  destruct (latest_day_returned _ _ _ _ _ _ _ Tmonth Tlast_series Hlatest)
    as [Tlatest_kwh Tlatest_cost].
  apply Forall_cons in Tladder as [Tstage Tladder].
  apply Forall_cons in Tladder as [Tremaining Tladder].
  apply Forall_cons in Tladder as [Ttariff Tladder].
  apply Forall_cons in Tladder as [Tstart _].
  intros f Hf. unfold scalar_fields in Hf.
  repeat (apply elem_of_cons in Hf as [-> | Hf]);
    try (by apply elem_of_nil in Hf); cbn [field_value];
    try (left; by apply number_three_state);
    try (left; by apply ladder_three_state).
  - destruct Tlatest_cost as [(x & Hx) | [Hx | Hx]]; rewrite Hx.
    + left. by left.
    + left. right. by left.
    + by right.
  - destruct Tlast_year as [[_ ->] | [_ T]];
      [left; right; by right | left; by apply number_three_state].
  - destruct Tlast_year as [[-> _] | [T _]];
      [left; right; by right | left; by apply number_three_state].
  - destruct Tlast_month as [[-> _] | [[-> _] | (x & ? & -> & _)]]; left.
    + right; by right.
    + right; by left.
    + by left.
Qed.

End Returned.

(* ================================================================= *)
(** * The snapshots of a cycle *)

(** Every snapshot in the data of the loop was there before or was
    returned by the body of the loop. *)
Lemma fetch_accounts_entries c current_dt update_last_month update_last_year
    accounts : forall data_ret w data w',
  fetch_accounts c current_dt update_last_month update_last_year accounts
    data_ret w = (Returns data, w') ->
  forall account snap,
    data !! account = Some snap ->
    data_ret !! account = Some snap
    \/ exists w0 w1,
         fetch_account c current_dt update_last_month update_last_year
           account w0 = (Returns snap, w1).
Proof.
  induction accounts as [|a rest IH]; intros data_ret w data w'; simpl.
  - intros [= <- _] account snap Hsnap. by left.
  - intros Hrun account snap Hsnap.
    apply bind_returns in Hrun as (s & w1 & Hbody & Hrun).
    destruct (IH _ _ _ _ Hrun account snap Hsnap) as [Hold | Hnew];
      [|by right].
    destruct (decide (a = account)) as [->|Hne].
    + rewrite lookup_insert_eq in Hold. injection Hold as ->.
      right. by exists w, w1.
    + rewrite lookup_insert_ne in Hold by done. by left.
Qed.

Lemma csg_fetch_all_entries c cfg current_dt w data w' account snap :
  csg_fetch_all c cfg current_dt w = (Returns data, w') ->
  data !! account = Some snap ->
  exists update_last_month update_last_year w0 w1,
    fetch_account c current_dt update_last_month update_last_year account w0
      = (Returns snap, w1).
Proof.
  unfold csg_fetch_all. destruct (CONF_ACCOUNTS cfg) as [|a rest] eqn:Ha.
  - intros [= <- _]. by rewrite lookup_empty.
  - rewrite <- Ha. clear Ha. intros Hrun Hsnap. invert_run Hrun.
    match goal with
    | H : fetch_accounts _ _ ?ulm ?uly _ _ _ = (Returns ?d, _) |- _ =>
        injection Hrun as <- _;
        destruct (fetch_accounts_entries _ _ _ _ _ _ _ _ _ H account snap
                    Hsnap) as [Hempty | (w0 & w1 & Hbody)];
        [by rewrite lookup_empty in Hempty | by exists ulm, uly, w0, w1]
    end.
Qed.

Lemma async_update_data_succeeded c cfg current_dt w data w' :
  _async_update_data c cfg current_dt w = (Succeeded data, w') ->
  csg_fetch_all c cfg current_dt (start_of_job cfg w) = (Returns data, w').
Proof.
  rewrite async_update_data_unfold. unfold with_timeout.
  destruct (csg_fetch_all c cfg current_dt (start_of_job cfg w))
    as [[d|e] w1].
  - destruct (_ <? _); [done|]. by intros [= <- <-].
  - destruct (_ <? _); [done|].
    by destruct (is_NotLoggedIn e), (is_CSGAPIError e), (is_TimeoutError e).
Qed.

Lemma unknown_not_three_state : ~ three_state unknown.
Proof. intros [(_ & _ & H) | [H | H]]; done. Qed.

(** C9, amended: in a cycle that succeeds with a client whose answers have
    the types of the interface, every scalar field of every snapshot is a
    concrete value, "unavailable" or "unchanged", but for the cost of the
    latest day, which can also be "unknown".  The states exclude one
    another: a concrete value is neither of the sentinels, the sentinels
    differ, and "unknown" is none of the three. *)
Theorem snapshot_fields_three_state_or_unknown
    c cfg current_dt w data w' account snap :
  well_typed c ->
  _async_update_data c cfg current_dt w = (Succeeded data, w') ->
  data !! account = Some snap ->
  (forall f, f ∈ scalar_fields ->
     three_state (field_value f snap)
     \/ (f = LATEST_DAY_COST /\ field_value f snap = unknown))
  /\ (forall v, concrete v -> v <> unavailable /\ v <> unchanged)
  /\ unavailable <> unchanged
  /\ ~ three_state unknown.
Proof.
  intros Htyped Hrun Hsnap. split; [|split; [|split]].
  - apply async_update_data_succeeded in Hrun.
    destruct (csg_fetch_all_entries _ _ _ _ _ _ _ _ Hrun Hsnap)
      as (ulm & uly & w0 & w1 & Hbody).
    by eapply fetch_account_returned.
  - intros v Hv. split; intros ->; simpl in Hv; by destruct Hv as (? & ? & ?).
  - done.
  - apply unknown_not_three_state.
Qed.

Lemma sample_client_well_typed seconds : well_typed (sample_client seconds).
Proof.
  intros r v. destruct r as [| | | |a|a y|a [y m]|a ym]; simpl; try done.
  - intros [= <-]. by eexists _, _.
  - intros [= <-]. by eexists.
  - intros [= <-]. by eexists _, _, _.
  - destruct (m =? 3); intros [= <-]; eexists _, _; (split; [done|]);
      repeat apply Forall_cons_2; try apply Forall_nil_2;
      (split; [intros kwh [= <-]; left; by eexists | by intros cost [=]]).
  - intros [= <-]. eexists _, _, _, _. split; [done|]. split.
    + intros key x Hx.
      apply lookup_insert_Some in Hx as [[_ <-] | [_ Hx]]; [by right|].
      apply lookup_insert_Some in Hx as [[_ <-] | [_ Hx]]; [by left|].
      apply lookup_insert_Some in Hx as [[_ <-] | [_ Hx]]; [by right|].
      apply lookup_singleton_Some in Hx as [_ <-]. by right.
    + repeat apply Forall_cons_2; try apply Forall_nil_2.
      split; [intros kwh [= <-]; left; by eexists|].
      intros cost [= <-]. by eexists.
Qed.

(** The first cycle of the sample client on the 7th of March. *)
Lemma snapshot_fields_three_state_or_unknown_witness :
  exists data w' snap,
    _async_update_data (sample_client 1) (Config ["0123"] 120)
      (DateTime 2024 3 7) (World [] 0 None) = (Succeeded data, w')
    /\ data !! "0123" = Some snap
    /\ three_state (SUFFIX_BAL snap).
Proof.
  eassert (Hrun : _async_update_data (sample_client 1) (Config ["0123"] 120)
                    (DateTime 2024 3 7) (World [] 0 None)
                  = (Succeeded _, _)) by (vm_compute; reflexivity).
  match type of Hrun with
  | _ = (Succeeded ?d, _) =>
      eassert (Hsnap : d !! "0123" = Some _) by (vm_compute; reflexivity)
  end.
  eexists _, _, _. split; [exact Hrun|]. split; [exact Hsnap|].
  destruct (snapshot_fields_three_state_or_unknown _ _ _ _ _ _ _ _
              (sample_client_well_typed 1) Hrun Hsnap) as [Hfields _].
  destruct (Hfields BAL) as [Hbal | [[=] _]]; [|exact Hbal].
  unfold scalar_fields. apply elem_of_cons. by left.
Defined.

(** C9 as it is worded fails: in the same cycle the last day of the merged
    series has no cost, and the cost of the latest day is emitted as
    "unknown", which is none of the three states. *)
Lemma latest_day_cost_unknown_counterexample :
  exists data w' snap,
    _async_update_data (sample_client 1) (Config ["0123"] 120)
      (DateTime 2024 3 7) (World [] 0 None) = (Succeeded data, w')
    /\ data !! "0123" = Some snap
    /\ SUFFIX_LATEST_DAY_COST snap = unknown
    /\ ~ three_state (SUFFIX_LATEST_DAY_COST snap).
Proof.
  eexists _, _, _. split; [vm_compute; reflexivity|].
  split; [vm_compute; reflexivity|]. split; [reflexivity|].
  apply unknown_not_three_state.
Qed.

(* ================================================================= *)
(** * Steps that do not depend on the world *)










Section Agree.

Variables c c' : client.




End Agree.




(* ================================================================= *)
(** * One answer changed: the fields that do not depend on it *)

Section Frame.

Variables (c : client) (func : request) (resp : response).
Variables (current_dt : datetime) (update_last_month update_last_year : bool).
Variable account : string.





End Frame.

(* ================================================================= *)
(** * One call fails: the cycle goes on *)



Section Survives.

Variables (c : client) (func : request) (seconds : Z) (e : client_exn).
Hypothesis e_classified : isinstance_CSGAPIError e = true.




End Survives.



Section Isolation.

Variables (c : client) (func : request) (seconds : Z) (e : client_exn).
Hypothesis e_classified : isinstance_CSGAPIError e = true.
Variables (current_dt : datetime) (update_last_month update_last_year : bool).
Variable account : string.



End Isolation.

(* ================================================================= *)
(** * One answer changed: the snapshots of a whole cycle *)

Section CycleFrame.

Variables (c : client) (func : request) (resp : response).
Variables (cfg : config) (current_dt : datetime).







End CycleFrame.


